(** * device-manager-web: the device list controller

    A shallow embedding of [js/devices.js] (query state, reload, sorting,
    pagination, search debounce, [escapeHtml]), of [apiFetch] from [js/api.js]
    and of [logout] from [js/auth.js], with the properties the specification
    states about them. *)

From Stdlib Require Import ZArith List String Ascii Lia Sorted Bool DecimalString.
From stdpp Require Import gmap strings.
Import ListNotations.

Local Open Scope string_scope.
Local Open Scope list_scope.
Local Open Scope Z_scope.

(** ** JavaScript values reaching the string helpers *)

(** The double quote, written by its code point. *)
Definition dquote : ascii := "034"%char.
Definition squote : ascii := "039"%char.

(** Template-literal interpolation of an integer (of fewer than 22 digits:
    beyond that JavaScript prints an exponent). *)
Definition show_Z (z : Z) : string := NilZero.string_of_int (Z.to_int z).

(** What [escapeHtml] can be handed. It is documented as taking a string;
    its guard [str == null] sets [null] and [undefined] apart, and of any
    other value it uses nothing but [String(str)], so such a value is given
    by what that conversion does with it: the string it returns, or nothing
    when it throws (as for [Object.create(null)]). *)
Inductive JsArg : Type :=
  | JsUndefined
  | JsNull
  | JsString (s : string)
  | JsOther (conversion : option string).

(** [String(v)]; [None] when the conversion throws. *)
Definition to_String (v : JsArg) : option string :=
  match v with
  | JsUndefined => Some "undefined"
  | JsNull => Some "null"
  | JsString s => Some s
  | JsOther conversion => conversion
  end.

(** [s.replace(/c/g, r)] for a one-character pattern [c] and a replacement
    [r] without [$] patterns. *)
Fixpoint replace_all (c : ascii) (r : string) (s : string) : string :=
  match s with
  | EmptyString => EmptyString
  | String a s' =>
      if Ascii.eqb a c then r +:+ replace_all c r s'
      else String a (replace_all c r s')
  end.

(** [escapeHtml]; [None] when the call throws. *)
Definition escapeHtml (str : JsArg) : option string :=
  match str with
  | JsUndefined | JsNull => Some EmptyString
  | _ =>
      match to_String str with
      | None => None
      | Some s =>
          Some (replace_all squote "&#39;"
                  (replace_all dquote "&quot;"
                     (replace_all ">" "&gt;"
                        (replace_all "<" "&lt;"
                           (replace_all "&" "&amp;" s)))))
      end
  end.

(** The character-wise reading of the same function: every character is
    mapped on its own, the five special ones to their entity. *)
Definition entity_of (a : ascii) : string :=
  if Ascii.eqb a "&" then "&amp;"
  else if Ascii.eqb a "<" then "&lt;"
  else if Ascii.eqb a ">" then "&gt;"
  else if Ascii.eqb a dquote then "&quot;"
  else if Ascii.eqb a squote then "&#39;"
  else String a EmptyString.

Fixpoint entity_encode (s : string) : string :=
  match s with
  | EmptyString => EmptyString
  | String a s' => entity_of a +:+ entity_encode s'
  end.

Fixpoint occurs (c : ascii) (s : string) : bool :=
  match s with
  | EmptyString => false
  | String a s' => Ascii.eqb a c || occurs c s'
  end.

(** ** Pagination range *)

Inductive PageItem : Type :=
  | Page (p : Z)
  | Ellipsis.

(** [Array.from({ length: total }, (_, i) => i)]; a negative length gives
    the empty array. *)
Definition array_from_length (total : Z) : list Z :=
  map Z.of_nat (seq 0 (Z.to_nat total)).

(** A JavaScript [Set] of numbers: insertion ordered, [add] ignores a value
    already present. *)
Definition set_add (x : Z) (s : list Z) : list Z :=
  if existsb (Z.eqb x) s then s else s ++ [x].

Definition set_of_list (l : list Z) : list Z :=
  fold_left (fun s x => set_add x s) l [].

(** [for (let i = lo; i <= hi; i++) range.add(i)], with [n] iterations left. *)
Fixpoint for_add (n : nat) (i : Z) (s : list Z) : list Z :=
  match n with
  | O => s
  | S n' => for_add n' (i + 1) (set_add i s)
  end.

(** [arr.sort((a, b) => a - b)]. *)
Fixpoint sort_insert (x : Z) (l : list Z) : list Z :=
  match l with
  | [] => [x]
  | y :: l' => if x - y <=? 0 then x :: l else y :: sort_insert x l'
  end.

Fixpoint sort_asc (l : list Z) : list Z :=
  match l with
  | [] => []
  | x :: l' => sort_insert x (sort_asc l')
  end.

(** The [forEach] over [sorted]: [prev] is [sorted[i - 1]], absent at
    [i = 0]. *)
Fixpoint walk (prev : option Z) (sorted : list Z) : list PageItem :=
  match sorted with
  | [] => []
  | p :: rest =>
      match prev with
      | Some q => if 1 <? p - q then Ellipsis :: Page p :: walk (Some p) rest
                  else Page p :: walk (Some p) rest
      | None => Page p :: walk (Some p) rest
      end
  end.

Definition page_set (current total : Z) : list Z :=
  let lo := Z.max 1 (current - 2) in
  let hi := Z.min (total - 2) (current + 2) in
  for_add (Z.to_nat (hi + 1 - lo)) lo (set_of_list [0; total - 1; current]).

Definition buildPageRange (current total : Z) : list PageItem :=
  if total <=? 7 then map Page (array_from_length total)
  else walk None (sort_asc (page_set current total)).

(** ** Strings the controller builds *)

(** Strings stand for JavaScript strings through their UTF-8 bytes, which
    is how the literals of this file are read. *)
Definition bytes (codes : list nat) : string :=
  fold_right (fun n s => String (ascii_of_nat n) s) EmptyString codes.

(** The characters [String.prototype.trim] removes, each in its UTF-8
    encoding: the WhiteSpace and LineTerminator code points of ECMAScript,
    that is U+0009 to U+000D, U+0020, U+00A0, U+1680, U+2000 to U+200A,
    U+2028, U+2029, U+202F, U+205F, U+3000 and U+FEFF. *)
Definition white_space : list string :=
  map bytes
    [[9]; [10]; [11]; [12]; [13]; [32]; [194; 160]; [225; 154; 128];
     [226; 128; 128]; [226; 128; 129]; [226; 128; 130]; [226; 128; 131];
     [226; 128; 132]; [226; 128; 133]; [226; 128; 134]; [226; 128; 135];
     [226; 128; 136]; [226; 128; 137]; [226; 128; 138];
     [226; 128; 168]; [226; 128; 169]; [226; 128; 175]; [226; 129; 159];
     [227; 128; 128]; [239; 187; 191]]%nat.

(** [s] is exactly one such character. *)
Definition is_white_space (s : string) : bool :=
  existsb (String.eqb s) white_space.

(** White space is taken off the front one character at a time, whether it
    takes one, two or three bytes. *)
Fixpoint trim_start (s : string) : string :=
  match s with
  | EmptyString => EmptyString
  | String a s1 =>
      if is_white_space (String a EmptyString) then trim_start s1
      else
        match s1 with
        | EmptyString => s
        | String b s2 =>
            if is_white_space (String a (String b EmptyString))
            then trim_start s2
            else
              match s2 with
              | EmptyString => s
              | String c s3 =>
                  if is_white_space (String a (String b (String c EmptyString)))
                  then trim_start s3
                  else s
              end
        end
  end.

(** From the back: once everything after a character is gone, the
    character goes too if it is white space. *)
Fixpoint trim_end (s : string) : string :=
  match s with
  | EmptyString => EmptyString
  | String a s' =>
      let r := String a (trim_end s') in
      if is_white_space r then EmptyString else r
  end.

Definition trim (s : string) : string := trim_end (trim_start s).

(** ** Query state ([const state] of devices.js) *)

Record State : Type := {
  page : Z;
  size : Z;
  sort : string;
  direction : string;
  status : string;
  type : string;
  q : string;
  totalPages : Z;
  totalItems : Z
}.

Definition initial_state : State :=
  {| page := 0; size := 20; sort := "name"; direction := "asc";
     status := EmptyString; type := EmptyString; q := EmptyString;
     totalPages := 0; totalItems := 0 |}.

Definition set_page (p : Z) (s : State) : State :=
  {| page := p; size := size s; sort := sort s; direction := direction s;
     status := status s; type := type s; q := q s;
     totalPages := totalPages s; totalItems := totalItems s |}.

Definition set_sort (c : string) (s : State) : State :=
  {| page := page s; size := size s; sort := c; direction := direction s;
     status := status s; type := type s; q := q s;
     totalPages := totalPages s; totalItems := totalItems s |}.

Definition set_direction (d : string) (s : State) : State :=
  {| page := page s; size := size s; sort := sort s; direction := d;
     status := status s; type := type s; q := q s;
     totalPages := totalPages s; totalItems := totalItems s |}.

Definition set_status (v : string) (s : State) : State :=
  {| page := page s; size := size s; sort := sort s; direction := direction s;
     status := v; type := type s; q := q s;
     totalPages := totalPages s; totalItems := totalItems s |}.

Definition set_type (v : string) (s : State) : State :=
  {| page := page s; size := size s; sort := sort s; direction := direction s;
     status := status s; type := v; q := q s;
     totalPages := totalPages s; totalItems := totalItems s |}.

Definition set_q (v : string) (s : State) : State :=
  {| page := page s; size := size s; sort := sort s; direction := direction s;
     status := status s; type := type s; q := v;
     totalPages := totalPages s; totalItems := totalItems s |}.

Definition set_totalPages (n : Z) (s : State) : State :=
  {| page := page s; size := size s; sort := sort s; direction := direction s;
     status := status s; type := type s; q := q s;
     totalPages := n; totalItems := totalItems s |}.

Definition set_totalItems (n : Z) (s : State) : State :=
  {| page := page s; size := size s; sort := sort s; direction := direction s;
     status := status s; type := type s; q := q s;
     totalPages := totalPages s; totalItems := n |}.

(** ** Data exchanged with the API *)

Record Device : Type := {
  d_id : string;
  d_name : string;
  d_type : string;
  d_status : string;
  d_ipAddress : option string;
  d_location : option string;
  d_updatedAt : option string;
  d_createdAt : option string
}.

(** The properties the client reads off a parsed JSON object; an absent or
    [null] property is [None] (both fall through [??]). *)
Record JsonObject : Type := {
  j_message : option string;
  j_error : option string;
  j_content : option (list Device);
  j_totalElements : option Z;
  j_totalPages : option Z
}.

(** Outcome of [response.json()]. *)
Inductive Body : Type :=
  | BodyInvalid (parse_error : string)
  | BodyNull
  | BodyObject (o : JsonObject).

Record Response : Type := {
  resp_status : Z;
  resp_body : Body
}.

(** [response.ok] *)
Definition resp_ok (r : Response) : bool :=
  (200 <=? resp_status r) && (resp_status r <=? 299).

(** How the promise returned by [fetch] settles. *)
Inductive FetchOutcome : Type :=
  | FetchRejected (msg : string)
  | FetchResponse (r : Response).

(** What [apiFetch] resolves to. *)
Inductive ApiValue : Type :=
  | AUndefined
  | ANull
  | AObject (o : JsonObject).

(** A settled promise; a rejection carries the [message] of its [Error]. *)
Inductive Settled : Type :=
  | Fulfilled (v : ApiValue)
  | Rejected (msg : string).

(** A request as [apiFetch] sends it; the query string is kept as the list
    of its parameters. *)
Record Request : Type := {
  method : string;
  path : string;
  query : list (string * string);
  authorization : string
}.

(** ** Page and browser *)

(** What [#table-content] holds: the markup it starts with, one of the
    [empty-state] blocks (icon classes, text, and the small print under it),
    or the table, whose header marks the sort column and direction. *)
Inductive TableContent : Type :=
  | InitialMarkup
  | EmptyState (icon : string) (text : string) (detail : option string)
  | DeviceTable (sort_col : string) (sort_dir : string) (rows : list Device).

(** The items of [#pagination]; [target] is the argument of the
    [goToPage] call in the link. *)
Inductive PageLink : Type :=
  | PrevLink (disabled : bool) (target : Z)
  | NumberLink (active : bool) (target : Z)
  | Dots
  | NextLink (disabled : bool) (target : Z).

Record Dom : Type := {
  search_input : string;
  status_filter : string;
  type_filter : string;
  device_count : string;
  table_content : TableContent;
  pagination_hidden : bool;
  pagination : list PageLink
}.

(** What leaves the script: requests, navigation, notices, scrolling. *)
Inductive Effect : Type :=
  | Fetch (id : nat) (r : Request)
  | Navigate (url : string)
  | Toast (message : string) (kind : string)
  | ScrollTo (x y : Z).

(** Who awaits a pending [apiFetch]: [loadDevices], or one of the dialog
    flows, whose continuation is given with the dialogs. *)
Inductive Cont : Type :=
  | KLoadDevices
  | KCaller.

(** Everything the script reads or writes: its globals, the pending
    timeouts (handle and due time, in order of creation), the clock, the
    page, the session, the pending requests, and the effects so far; and
    the wording the JavaScript engine gives the [TypeError] for reading
    [totalPages] off [undefined] and off [null], which differs between
    engines. *)
Record World : Type := {
  state : State;
  searchDebounce : option nat;
  timers : list (nat * Z);
  next_handle : nat;
  clock : Z;
  dom : Dom;
  sessionStorage : gmap string string;
  location_href : string;
  inflight : gmap nat Cont;
  next_request : nat;
  type_error_undefined : string;
  type_error_null : string;
  log : list Effect
}.

Definition with_state (s : State) (w : World) : World :=
  {| state := s; searchDebounce := searchDebounce w; timers := timers w;
     next_handle := next_handle w; clock := clock w; dom := dom w;
     sessionStorage := sessionStorage w; location_href := location_href w;
     inflight := inflight w; next_request := next_request w; type_error_undefined := type_error_undefined w;
     type_error_null := type_error_null w;
     log := log w |}.

Definition with_timer (h : option nat) (ts : list (nat * Z)) (n : nat)
    (w : World) : World :=
  {| state := state w; searchDebounce := h; timers := ts;
     next_handle := n; clock := clock w; dom := dom w;
     sessionStorage := sessionStorage w; location_href := location_href w;
     inflight := inflight w; next_request := next_request w; type_error_undefined := type_error_undefined w;
     type_error_null := type_error_null w;
     log := log w |}.

Definition with_clock (t : Z) (w : World) : World :=
  {| state := state w; searchDebounce := searchDebounce w; timers := timers w;
     next_handle := next_handle w; clock := t; dom := dom w;
     sessionStorage := sessionStorage w; location_href := location_href w;
     inflight := inflight w; next_request := next_request w; type_error_undefined := type_error_undefined w;
     type_error_null := type_error_null w;
     log := log w |}.

Definition with_dom (d : Dom) (w : World) : World :=
  {| state := state w; searchDebounce := searchDebounce w; timers := timers w;
     next_handle := next_handle w; clock := clock w; dom := d;
     sessionStorage := sessionStorage w; location_href := location_href w;
     inflight := inflight w; next_request := next_request w; type_error_undefined := type_error_undefined w;
     type_error_null := type_error_null w;
     log := log w |}.

Definition with_session (ss : gmap string string) (href : string)
    (w : World) : World :=
  {| state := state w; searchDebounce := searchDebounce w; timers := timers w;
     next_handle := next_handle w; clock := clock w; dom := dom w;
     sessionStorage := ss; location_href := href;
     inflight := inflight w; next_request := next_request w; type_error_undefined := type_error_undefined w;
     type_error_null := type_error_null w;
     log := log w |}.

Definition with_inflight (m : gmap nat Cont) (n : nat) (w : World) : World :=
  {| state := state w; searchDebounce := searchDebounce w; timers := timers w;
     next_handle := next_handle w; clock := clock w; dom := dom w;
     sessionStorage := sessionStorage w; location_href := location_href w;
     inflight := m; next_request := n; type_error_undefined := type_error_undefined w;
     type_error_null := type_error_null w;
     log := log w |}.

Definition emit (e : Effect) (w : World) : World :=
  {| state := state w; searchDebounce := searchDebounce w; timers := timers w;
     next_handle := next_handle w; clock := clock w; dom := dom w;
     sessionStorage := sessionStorage w; location_href := location_href w;
     inflight := inflight w; next_request := next_request w;
     type_error_undefined := type_error_undefined w;
     type_error_null := type_error_null w;
     log := log w ++ [e] |}.

Definition set_inputs (s st ty : string) (d : Dom) : Dom :=
  {| search_input := s; status_filter := st; type_filter := ty;
     device_count := device_count d; table_content := table_content d;
     pagination_hidden := pagination_hidden d; pagination := pagination d |}.

Definition set_device_count (c : string) (d : Dom) : Dom :=
  {| search_input := search_input d; status_filter := status_filter d;
     type_filter := type_filter d;
     device_count := c; table_content := table_content d;
     pagination_hidden := pagination_hidden d; pagination := pagination d |}.

Definition set_table_content (t : TableContent) (d : Dom) : Dom :=
  {| search_input := search_input d; status_filter := status_filter d;
     type_filter := type_filter d;
     device_count := device_count d; table_content := t;
     pagination_hidden := pagination_hidden d; pagination := pagination d |}.

Definition set_pagination (hidden : bool) (ul : list PageLink) (d : Dom) : Dom :=
  {| search_input := search_input d; status_filter := status_filter d;
     type_filter := type_filter d;
     device_count := device_count d; table_content := table_content d;
     pagination_hidden := hidden; pagination := ul |}.

(** ** auth.js *)

(** A string is falsy exactly when it is empty. *)
Definition truthy (s : string) : bool :=
  match s with
  | EmptyString => false
  | String _ _ => true
  end.


Definition AUTH_KEY : string := "dmw_auth".
Definition USER_KEY : string := "dmw_user".

(** Assigning [window.location.href] asks the browser to navigate; the
    script goes on running, and responses that arrive before the document is
    replaced are still handled. *)
Definition logout (w : World) : World :=
  emit (Navigate "index.html")
    (with_session (delete USER_KEY (delete AUTH_KEY (sessionStorage w)))
       "index.html" w).

(** [!sessionStorage.getItem(AUTH_KEY)] holds for a missing token and for an
    empty one. *)
Definition requireAuth (w : World) : World :=
  match sessionStorage w !! AUTH_KEY with
  | Some (String _ _) => w
  | Some EmptyString | None =>
      emit (Navigate "index.html")
        (with_session (sessionStorage w) "index.html" w)
  end.

(** The [Authorization] header; an absent token interpolates as [null]. *)
Definition getAuthHeader (w : World) : string :=
  "Basic " +:+ match sessionStorage w !! AUTH_KEY with
               | Some token => token
               | None => "null"
               end.

(** ** api.js *)

(** [apiFetch] up to its [await fetch(...)]: the request leaves and the
    caller [k] is suspended on it. *)
Definition apiFetch (m p : string) (qs : list (string * string)) (k : Cont)
    (w : World) : World :=
  let id := next_request w in
  let r := {| method := m; path := p; query := qs;
              authorization := getAuthHeader w |} in
  emit (Fetch id r) (with_inflight (<[id := k]> (inflight w)) (S id) w).

(** The message of the [Error] thrown for a response that is not ok. *)
Definition error_message (r : Response) : string :=
  let msg := "HTTP " +:+ show_Z (resp_status r) in
  match resp_body r with
  | BodyObject o =>
      match j_message o with
      | Some m => m
      | None => match j_error o with
                | Some e => e
                | None => msg
                end
      end
  | BodyNull | BodyInvalid _ => msg
  end.

(** [apiFetch] from the point where [fetch] has settled. *)
Definition apiFetch_settle (o : FetchOutcome) (w : World) : World * Settled :=
  match o with
  | FetchRejected msg => (w, Rejected msg)
  | FetchResponse r =>
      if resp_status r =? 401 then (logout w, Fulfilled AUndefined)
      else if negb (resp_ok r) then (w, Rejected (error_message r))
      else if resp_status r =? 204 then (w, Fulfilled ANull)
      else match resp_body r with
           | BodyInvalid e => (w, Rejected e)
           | BodyNull => (w, Fulfilled ANull)
           | BodyObject obj => (w, Fulfilled (AObject obj))
           end
  end.

(** The [URLSearchParams] of [getDevices], for the parameters [loadDevices]
    copies out of the query state. *)
Definition getDevices_query (s : State) : list (string * string) :=
  [("page", show_Z (page s)); ("size", show_Z (size s))]
  ++ (if truthy (sort s) then [("sort", sort s +:+ "," +:+ direction s)] else [])
  ++ (if truthy (status s) then [("status", status s)] else [])
  ++ (if truthy (type s) then [("type", type s)] else [])
  ++ (if truthy (q s) then [("q", q s)] else []).

Definition getDevices (s : State) (k : Cont) (w : World) : World :=
  apiFetch "GET" "/devices" (getDevices_query s) k w.

(** ** devices.js: load and render *)

(** The synchronous part of [loadDevices]: the query state is copied into
    the request and the function suspends on [getDevices]. *)
Definition loadDevices (w : World) : World :=
  getDevices (state w) KLoadDevices w.

Definition no_results : TableContent :=
  EmptyState "bi bi-inbox" "No devices found. Try adjusting your filters." None.

(** The block the [catch] branch writes; [msg] is what the template
    interpolates, put into the markup as it is, without escaping. *)
Definition load_error (msg : string) : TableContent :=
  EmptyState "bi bi-exclamation-triangle text-danger" "Failed to load devices."
    (Some msg).

Definition renderTable (devices : list Device) (w : World) : World :=
  match devices with
  | [] => with_dom (set_table_content no_results (dom w)) w
  | _ :: _ =>
      with_dom
        (set_table_content
           (DeviceTable (sort (state w)) (direction (state w)) devices)
           (dom w)) w
  end.

Definition page_link (current : Z) (item : PageItem) : PageLink :=
  match item with
  | Ellipsis => Dots
  | Page p => NumberLink (p =? current) p
  end.

Definition renderPagination (w : World) : World :=
  let s := state w in
  if totalPages s <=? 1 then
    with_dom (set_pagination true (pagination (dom w)) (dom w)) w
  else
    with_dom
      (set_pagination false
         (PrevLink (page s =? 0) (page s - 1)
            :: map (page_link (page s)) (buildPageRange (page s) (totalPages s))
            ++ [NextLink (totalPages s - 1 <=? page s) (page s + 1)])
         (dom w)) w.

Definition showToast (message kind : string) (w : World) : World :=
  emit (Toast message kind) w.

(** The [catch] branch of [loadDevices]. *)
Definition loadDevices_catch (msg : string) (w : World) : World :=
  let w1 := showToast ("Failed to load devices: " +:+ msg) "danger" w in
  with_dom (set_table_content (load_error msg) (dom w1)) w1.

Definition count_text (n : Z) : string :=
  show_Z n +:+ " device" +:+ (if n =? 1 then EmptyString else "s") +:+ " found".

(** The [try] body of [loadDevices] after [getDevices] resolved to an
    object. *)
Definition loadDevices_apply (data : JsonObject) (w : World) : World :=
  let tp := match j_totalPages data with Some n => n | None => 0 end in
  let ti := match j_totalElements data with Some n => n | None => 0 end in
  let w1 := with_state (set_totalItems ti (set_totalPages tp (state w))) w in
  let w2 := with_dom (set_device_count (count_text ti) (dom w1)) w1 in
  let w3 := renderTable (match j_content data with Some l => l | None => [] end) w2 in
  renderPagination w3.

(** The [TypeError] raised by [data.totalPages] when [data] is not an
    object, as V8 words it; the worlds of the examples take this wording. *)
Definition undefined_data_message : string :=
  "Cannot read properties of undefined (reading 'totalPages')".
Definition null_data_message : string :=
  "Cannot read properties of null (reading 'totalPages')".

(** [loadDevices] resumed with the settled result of [getDevices]. *)
Definition loadDevices_resume (r : Settled) (w : World) : World :=
  match r with
  | Fulfilled (AObject data) => loadDevices_apply data w
  | Fulfilled AUndefined => loadDevices_catch (type_error_undefined w) w
  | Fulfilled ANull => loadDevices_catch (type_error_null w) w
  | Rejected msg => loadDevices_catch msg w
  end.

(** ** devices.js: sorting, paging, toolbar *)

Definition sortBy (col : string) (w : World) : World :=
  let s := state w in
  let s1 :=
    if String.eqb (sort s) col then
      set_direction (if String.eqb (direction s) "asc" then "desc" else "asc") s
    else set_direction "asc" (set_sort col s) in
  loadDevices (with_state (set_page 0 s1) w).

Definition goToPage (p : Z) (w : World) : World :=
  if (p <? 0) || (totalPages (state w) <=? p) then w
  else emit (ScrollTo 0 0) (loadDevices (with_state (set_page p (state w)) w)).

Definition clearTimeout (h : option nat) (ts : list (nat * Z)) : list (nat * Z) :=
  match h with
  | None => ts
  | Some n => List.filter (fun e => negb (Nat.eqb (fst e) n)) ts
  end.

(** The [input] listener of the search box; [text] is the value the box
    holds when the event fires. *)
Definition on_search_input (text : string) (w : World) : World :=
  let w1 := with_dom (set_inputs text (status_filter (dom w))
                        (type_filter (dom w)) (dom w)) w in
  let ts := clearTimeout (searchDebounce w1) (timers w1) in
  let h := next_handle w1 in
  with_timer (Some h) (ts ++ [(h, clock w1 + 350)]) (S h) w1.

(** The debounced callback: it reads the box when it runs. *)
Definition search_commit (w : World) : World :=
  loadDevices
    (with_state (set_page 0 (set_q (trim (search_input (dom w))) (state w))) w).

Definition on_status_change (v : string) (w : World) : World :=
  let w1 := with_dom (set_inputs (search_input (dom w)) v
                        (type_filter (dom w)) (dom w)) w in
  loadDevices (with_state (set_page 0 (set_status v (state w1))) w1).

Definition on_type_change (v : string) (w : World) : World :=
  let w1 := with_dom (set_inputs (search_input (dom w))
                        (status_filter (dom w)) v (dom w)) w in
  loadDevices (with_state (set_page 0 (set_type v (state w1))) w1).

Definition on_clear_filters (w : World) : World :=
  let s := set_page 0 (set_type EmptyString (set_status EmptyString
             (set_q EmptyString (state w)))) in
  let w1 := with_state s w in
  let w2 := with_dom (set_inputs EmptyString EmptyString EmptyString (dom w1)) w1 in
  loadDevices w2.

(** One firing of the 30 s interval; [anyOpen] tells whether a modal is
    shown. *)
Definition on_refresh_tick (anyOpen : bool) (w : World) : World :=
  if anyOpen then w else loadDevices w.

(** ** The event loop *)

(** Time passes: the timeouts that came due run, oldest first (all have the
    same delay, so the order of creation is the order of expiry). *)
Definition elapse (dt : Z) (w : World) : World :=
  let now := clock w + Z.max 0 dt in
  let due := List.filter (fun e => snd e <=? now) (timers w) in
  let rest := List.filter (fun e => negb (snd e <=? now)) (timers w) in
  let w1 := with_clock now (with_timer (searchDebounce w) rest (next_handle w) w) in
  fold_left (fun acc _ => search_commit acc) due w1.

(** What can happen to the page: user input, time passing, a firing of the
    refresh interval, a direct call of [loadDevices] (as the modal flows make
    after a successful save or delete), a call of [apiFetch] by a modal flow,
    and the arrival of a response. *)
Inductive Event : Type :=
  | SearchInput (text : string)
  | Elapse (dt : Z)
  | StatusChange (v : string)
  | TypeChange (v : string)
  | ClearFilters
  | SortBy (col : string)
  | GoToPage (p : Z)
  | RefreshTick (anyOpen : bool)
  | Reload
  | ApiCall (m p : string)
  | Respond (id : nat) (o : FetchOutcome).

(** A response reaches the [apiFetch] call that awaits it. For a call made
    by [loadDevices] the function then resumes with what [apiFetch] settled
    to. For a call made by a dialog this is [apiFetch]'s part alone: how
    [confirmDelete] and [saveDevice] resume, and the reload they then ask
    for, is [confirmDelete_respond] and [saveDevice_respond] below. *)
Definition respond (id : nat) (o : FetchOutcome) (w : World) : World :=
  match inflight w !! id with
  | None => w
  | Some k =>
      let w1 := with_inflight (delete id (inflight w)) (next_request w) w in
      let '(w2, r) := apiFetch_settle o w1 in
      match k with
      | KLoadDevices => loadDevices_resume r w2
      | KCaller => w2
      end
  end.

Definition step (w : World) (e : Event) : World :=
  match e with
  | SearchInput text => on_search_input text w
  | Elapse dt => elapse dt w
  | StatusChange v => on_status_change v w
  | TypeChange v => on_type_change v w
  | ClearFilters => on_clear_filters w
  | SortBy col => sortBy col w
  | GoToPage p => goToPage p w
  | RefreshTick anyOpen => on_refresh_tick anyOpen w
  | Reload => loadDevices w
  | ApiCall m p => apiFetch m p [] KCaller w
  | Respond id o => respond id o w
  end.

Definition run (w : World) (es : list Event) : World := fold_left step es w.

(** The markup of devices.html is not among the sources; the inputs start
    empty and the pagination hidden. *)
Definition blank_dom : Dom :=
  {| search_input := EmptyString; status_filter := EmptyString;
     type_filter := EmptyString; device_count := EmptyString;
     table_content := InitialMarkup; pagination_hidden := true;
     pagination := [] |}.

(** The page as the script finds it, with the session [ss] left by the
    login page, in a browser that words its errors as V8 does. *)
Definition fresh_world (ss : gmap string string) : World :=
  {| state := initial_state; searchDebounce := None; timers := [];
     next_handle := 0; clock := 0; dom := blank_dom;
     sessionStorage := ss; location_href := "devices.html";
     inflight := ∅; next_request := 0;
     type_error_undefined := undefined_data_message;
     type_error_null := null_data_message; log := [] |}.

(** The [DOMContentLoaded] listener, as far as the list is concerned. *)
Definition DOMContentLoaded (w : World) : World :=
  loadDevices (requireAuth w).

Definition logged_in : gmap string string :=
  <[AUTH_KEY := "YWRtaW46c2VjcmV0"]> (<[USER_KEY := "admin"]> ∅).

Definition boot : World := DOMContentLoaded (fresh_world logged_in).

(** ** Observations *)

(** The Result Summary: the items on display and the totals. *)
Definition displayed_items (t : TableContent) : list Device :=
  match t with
  | DeviceTable _ _ rows => rows
  | _ => []
  end.

Definition result_summary (w : World) : list Device * Z * Z :=
  (displayed_items (table_content (dom w)),
   totalItems (state w), totalPages (state w)).

Definition summary_of (data : JsonObject) : list Device * Z * Z :=
  (match j_content data with Some l => l | None => [] end,
   match j_totalElements data with Some n => n | None => 0 end,
   match j_totalPages data with Some n => n | None => 0 end).

Definition ok_response (data : JsonObject) : FetchOutcome :=
  FetchResponse {| resp_status := 200; resp_body := BodyObject data |}.

Definition page_data (l : list Device) (te tp : Z) : JsonObject :=
  {| j_message := None; j_error := None; j_content := Some l;
     j_totalElements := Some te; j_totalPages := Some tp |}.

Definition is_fetch (e : Effect) : bool :=
  match e with Fetch _ _ => true | _ => false end.

Definition is_logout (e : Effect) : bool :=
  match e with
  | Navigate url => String.eqb url "index.html"
  | _ => false
  end.

(** The requests sent so far, and how often the session was torn down. *)
Definition requests (w : World) : list Effect := List.filter is_fetch (log w).
Definition teardowns (w : World) : nat :=
  List.length (List.filter is_logout (log w)).

Definition sample_device : Device :=
  {| d_id := "7f3c"; d_name := "core-switch"; d_type := "NETWORK";
     d_status := "ACTIVE"; d_ipAddress := Some "10.0.0.2";
     d_location := None; d_updatedAt := None; d_createdAt := None |}.

(** ** Reference readings used in the statements *)

(** [lo; lo+1; ...], [n] entries. *)
Fixpoint zrange (lo : Z) (n : nat) : list Z :=
  match n with
  | O => []
  | S n' => lo :: zrange (lo + 1) n'
  end.

(** The specification's page set for more than seven pages: page 0, the
    last page, the current page, and every page within distance 2 of the
    current one that lies in [1, total-2]; in increasing order. *)
Definition wanted (current total p : Z) : bool :=
  (p =? 0) || (p =? total - 1) || (p =? current)
  || ((Z.abs (p - current) <=? 2) && (1 <=? p) && (p <=? total - 2)).

Definition spec_pages (current total : Z) : list Z :=
  List.filter (wanted current total) (zrange 0 (Z.to_nat total)).

(** An ellipsis between two consecutive entries that differ by more than 1. *)
Fixpoint with_ellipses (l : list Z) : list PageItem :=
  match l with
  | [] => []
  | a :: rest =>
      Page a ::
        match rest with
        | [] => []
        | b :: _ => if 1 <? b - a then Ellipsis :: with_ellipses rest
                    else with_ellipses rest
        end
  end.

Definition is_page (i : PageItem) : bool :=
  match i with Page _ => true | Ellipsis => false end.

Definition count_pages (l : list PageItem) : nat :=
  List.length (List.filter is_page l).

Definition count_ellipses (l : list PageItem) : nat :=
  List.length (List.filter (fun i => negb (is_page i)) l).

(** The five replacement passes of [escapeHtml] on a string. *)
Definition passes (s : string) : string :=
  replace_all squote "&#39;"
    (replace_all dquote "&quot;"
       (replace_all ">" "&gt;"
          (replace_all "<" "&lt;"
             (replace_all "&" "&amp;" s)))).

(** A reload fails when the fetch rejects or the response is not ok. *)
Definition fetch_failed (o : FetchOutcome) : bool :=
  match o with
  | FetchRejected _ => true
  | FetchResponse r => negb (resp_ok r)
  end.

(** Two pages of data that differ. *)
Definition stale_data : JsonObject := page_data [sample_device] 1 1.
Definition fresh_data : JsonObject := page_data [] 0 0.

(** A response with status 401. *)
Definition unauthorized : FetchOutcome :=
  FetchResponse {| resp_status := 401; resp_body := BodyNull |}.

(** Every pending timeout is the one [searchDebounce] refers to, so the
    next input event cancels it. *)
Definition cancellable (w : World) : bool :=
  forallb (fun e => match searchDebounce w with
                    | Some h => Nat.eqb (fst e) h
                    | None => false
                    end) (timers w).

(** A burst: each entry is the text of an input event and the time that
    passes after it. *)
Definition burst_events (b : list (string * Z)) : list Event :=
  flat_map (fun xd => [SearchInput (fst xd); Elapse (snd xd)]) b.

(** Strictly increasing lists of page numbers. *)
Abbreviation increasing := (StronglySorted Z.lt).

(** ** Further observations *)

(** The page numbers of a range, ellipses dropped. *)
Definition pages_of (l : list PageItem) : list Z :=
  flat_map (fun i => match i with Page p => [p] | Ellipsis => [] end) l.

Definition is_active (k : PageLink) : bool :=
  match k with NumberLink true _ => true | _ => false end.

(** [0 <= p < totalPages], the test [goToPage] lets through. *)
Definition in_range (p : Z) (w : World) : bool :=
  (0 <=? p) && (p <? totalPages (state w)).

(** A link can be followed when [goToPage] accepts its target; the previous
    and next links carry their own [disabled] mark. *)
Definition link_consistent (w : World) (k : PageLink) : bool :=
  match k with
  | PrevLink d p | NextLink d p => Bool.eqb d (negb (in_range p w))
  | NumberLink _ p => in_range p w
  | Dots => true
  end.

(** The request a reload sends for query state [s] when [w] is current. *)
Definition reload_request (s : State) (w : World) : Effect :=
  Fetch (next_request w)
    {| method := "GET"; path := "/devices"; query := getDevices_query s;
       authorization := getAuthHeader w |}.

(** The events that ask for a reload outright. *)
Definition is_intent (e : Event) : bool :=
  match e with
  | StatusChange _ | TypeChange _ | ClearFilters | SortBy _ | Reload
  | RefreshTick false => true
  | _ => false
  end.

(** The seven fields of the query state that go into a request. *)
Definition query_fields (s : State)
    : Z * Z * string * string * string * string * string :=
  (page s, size s, sort s, direction s, status s, type s, q s).

Definition is_unauthorized (e : Event) : bool :=
  match e with
  | Respond _ (FetchResponse r) => resp_status r =? 401
  | _ => false
  end.

(** The text is white space only: taking white space off its front leaves
    nothing. *)
Definition all_space (s : string) : bool :=
  match trim_start s with
  | EmptyString => true
  | String _ _ => false
  end.

(** The first value stored under a key of a parameter list. *)
Fixpoint param (k : string) (l : list (string * string)) : option string :=
  match l with
  | [] => None
  | (k', v) :: l' => if String.eqb k' k then Some v else param k l'
  end.

(** The toolbar shows what the query state holds: both filters always, the
    search text once no commit is pending. *)
Definition in_sync (w : World) : Prop :=
  status_filter (dom w) = status (state w)
  /\ type_filter (dom w) = type (state w)
  /\ (timers w = [] -> q (state w) = trim (search_input (dom w))).

(** The [authorization] headers of the requests sent so far. *)
Definition sent_authorizations (w : World) : list string :=
  flat_map (fun e => match e with
                     | Fetch _ r => [authorization r]
                     | _ => []
                     end) (log w).

(** ** auth.js: logging in *)

(** [getCurrentUser] *)
Definition getCurrentUser (w : World) : option string :=
  sessionStorage w !! USER_KEY.

(** The request [login] validates the credentials with; [btoa] is the
    browser's base64 encoder. *)
Definition login_authorization (btoa : string -> string)
    (username password : string) : string :=
  "Basic " +:+ btoa (username +:+ ":" +:+ password).

(** [login] from the point where its [fetch] has settled: the world after
    it, and the message of the error it rejects with, if it does. *)
Definition login_settle (btoa : string -> string) (username password : string)
    (o : FetchOutcome) (w : World) : World * option string :=
  match o with
  | FetchRejected msg => (w, Some msg)
  | FetchResponse r =>
      if negb (resp_ok r) then
        (w, Some (if resp_status r =? 401 then "Invalid username or password."
                  else "Server error: " +:+ show_Z (resp_status r)))
      else
        (emit (Navigate "dashboard.html")
           (with_session
              (<[USER_KEY := username]>
                 (<[AUTH_KEY := btoa (username +:+ ":" +:+ password)]>
                    (sessionStorage w)))
              "dashboard.html" w),
         None)
  end.

(** ** devices.js: the delete and save dialogs *)

(** A button with its caption and spinner. *)
Record Button : Type := {
  btn_disabled : bool;
  btn_text : string;
  spinner_hidden : bool
}.

Record Form : Type := {
  form_id : string;
  form_name : string;
  form_type : string;
  form_status : string;
  form_ip : string;
  form_location : string;
  form_serial : string;
  form_description : string
}.

(** The object [saveDevice] sends. *)
Record DeviceData : Type := {
  data_name : string;
  data_type : string;
  data_status : string;
  data_ipAddress : option string;
  data_location : option string;
  data_serialNumber : option string;
  data_description : option string
}.

(** The page with its dialogs: [deleteTargetId], the delete dialog and its
    confirm button, the device dialog with its form and save button, and the
    bodies of the requests sent (a [Request] does not carry them). *)
Record Ui : Type := {
  world : World;
  deleteTargetId : option string;
  delete_shown : bool;
  delete_device_name : string;
  delete_button : Button;
  device_shown : bool;
  device_title : string;
  form : Form;
  was_validated : bool;
  save_button : Button;
  bodies : list (nat * DeviceData)
}.

Definition with_world (w : World) (u : Ui) : Ui :=
  {| world := w; deleteTargetId := deleteTargetId u;
     delete_shown := delete_shown u; delete_device_name := delete_device_name u;
     delete_button := delete_button u; device_shown := device_shown u;
     device_title := device_title u; form := form u;
     was_validated := was_validated u; save_button := save_button u;
     bodies := bodies u |}.

Definition with_delete (t : option string) (shown : bool) (n : string)
    (b : Button) (u : Ui) : Ui :=
  {| world := world u; deleteTargetId := t;
     delete_shown := shown; delete_device_name := n;
     delete_button := b; device_shown := device_shown u;
     device_title := device_title u; form := form u;
     was_validated := was_validated u; save_button := save_button u;
     bodies := bodies u |}.

Definition with_device (shown : bool) (title : string) (f : Form)
    (validated : bool) (b : Button) (u : Ui) : Ui :=
  {| world := world u; deleteTargetId := deleteTargetId u;
     delete_shown := delete_shown u; delete_device_name := delete_device_name u;
     delete_button := delete_button u; device_shown := shown;
     device_title := title; form := f;
     was_validated := validated; save_button := b;
     bodies := bodies u |}.

Definition with_bodies (l : list (nat * DeviceData)) (u : Ui) : Ui :=
  {| world := world u; deleteTargetId := deleteTargetId u;
     delete_shown := delete_shown u; delete_device_name := delete_device_name u;
     delete_button := delete_button u; device_shown := device_shown u;
     device_title := device_title u; form := form u;
     was_validated := was_validated u; save_button := save_button u;
     bodies := l |}.

Definition busy (caption : string) : Button :=
  {| btn_disabled := true; btn_text := caption; spinner_hidden := false |}.

Definition idle (caption : string) : Button :=
  {| btn_disabled := false; btn_text := caption; spinner_hidden := true |}.

(** [!deleteTargetId] is false for a non-empty id only. *)
Definition target_id (t : option string) : option string :=
  match t with
  | Some id => if truthy id then Some id else None
  | None => None
  end.

Definition openDeleteModal (id name : string) (u : Ui) : Ui :=
  with_delete (Some id) true name (delete_button u) u.

(** [deleteDevice(id)] of api.js *)
Definition deleteDevice (id : string) (w : World) : World :=
  apiFetch "DELETE" ("/devices/" +:+ id) [] KCaller w.

(** [createDevice(data)] and [updateDevice(id, data)] of api.js; the body
    is recorded by the caller. *)
Definition createDevice (w : World) : World :=
  apiFetch "POST" "/devices" [] KCaller w.

Definition updateDevice (id : string) (w : World) : World :=
  apiFetch "PUT" ("/devices/" +:+ id) [] KCaller w.

(** [confirmDelete] up to [await deleteDevice(...)]. *)
Definition confirmDelete (u : Ui) : Ui :=
  match target_id (deleteTargetId u) with
  | None => u
  | Some id =>
      with_world (deleteDevice id (world u))
        (with_delete (deleteTargetId u) (delete_shown u) (delete_device_name u)
           (busy "Deleting…") u)
  end.

(** [confirmDelete] resumed with the settled [deleteDevice]: the [try] body
    or the [catch] branch, then [finally]. *)
Definition confirmDelete_resume (r : Settled) (u : Ui) : Ui :=
  let u1 :=
    match r with
    | Fulfilled _ =>
        let u2 := with_world (showToast "Device deleted." "success" (world u)) u in
        let u3 := with_delete None false (delete_device_name u2)
                    (delete_button u2) u2 in
        with_world (loadDevices (world u3)) u3
    | Rejected msg =>
        with_world (showToast ("Delete failed: " +:+ msg) "danger" (world u)) u
    end in
  with_delete (deleteTargetId u1) (delete_shown u1) (delete_device_name u1)
    (idle "Delete") u1.

(** The response to request [id] reaches a suspended [confirmDelete]. *)
Definition confirmDelete_respond (id : nat) (o : FetchOutcome) (u : Ui) : Ui :=
  match inflight (world u) !! id with
  | Some KCaller =>
      let w1 := with_inflight (delete id (inflight (world u)))
                  (next_request (world u)) (world u) in
      confirmDelete_resume (snd (apiFetch_settle o w1))
        (with_world (fst (apiFetch_settle o w1)) u)
  | _ => u
  end.

(** [value.trim() || null] *)
Definition trimmed_or_null (v : string) : option string :=
  if truthy (trim v) then Some (trim v) else None.

Definition form_data (f : Form) : DeviceData :=
  {| data_name := trim (form_name f);
     data_type := form_type f;
     data_status := form_status f;
     data_ipAddress := trimmed_or_null (form_ip f);
     data_location := trimmed_or_null (form_location f);
     data_serialNumber := trimmed_or_null (form_serial f);
     data_description := trimmed_or_null (form_description f) |}.

Definition set_form_fields (id ty st : string) (f : Form) : Form :=
  {| form_id := id; form_name := form_name f; form_type := ty;
     form_status := st; form_ip := form_ip f; form_location := form_location f;
     form_serial := form_serial f; form_description := form_description f |}.

(** [openCreateModal]; [defaults] is what [form.reset()] restores, which the
    markup decides. *)
Definition openCreateModal (defaults : Form) (u : Ui) : Ui :=
  with_device true "Add Device" (set_form_fields EmptyString "SERVER" "ACTIVE" defaults)
    false (save_button u) u.

(** [saveDevice] up to its [await]; [valid] is the result of
    [form.checkValidity()]. *)
Definition saveDevice (valid : bool) (u : Ui) : Ui :=
  let u1 := with_device (device_shown u) (device_title u) (form u) true
              (save_button u) u in
  if negb valid then u1
  else
    let id := form_id (form u1) in
    let data := form_data (form u1) in
    let u2 := with_device (device_shown u1) (device_title u1) (form u1)
                (was_validated u1) (busy "Saving…") u1 in
    let n := next_request (world u2) in
    let w := if truthy id then updateDevice id (world u2)
             else createDevice (world u2) in
    with_bodies (bodies u2 ++ [(n, data)]) (with_world w u2).

(** [saveDevice] resumed with the settled call; [id] is the form's id as
    read before the call. *)
Definition saveDevice_resume (id : string) (r : Settled) (u : Ui) : Ui :=
  let u1 :=
    match r with
    | Fulfilled _ =>
        let u2 := with_world
                    (showToast (if truthy id then "Device updated successfully."
                                else "Device created successfully.")
                       "success" (world u)) u in
        let u3 := with_device false (device_title u2) (form u2)
                    (was_validated u2) (save_button u2) u2 in
        with_world (loadDevices (world u3)) u3
    | Rejected msg =>
        with_world (showToast ("Save failed: " +:+ msg) "danger" (world u)) u
    end in
  with_device (device_shown u1) (device_title u1) (form u1) (was_validated u1)
    (idle "Save") u1.

Definition saveDevice_respond (id : string) (rid : nat) (o : FetchOutcome)
    (u : Ui) : Ui :=
  match inflight (world u) !! rid with
  | Some KCaller =>
      let w1 := with_inflight (delete rid (inflight (world u)))
                  (next_request (world u)) (world u) in
      saveDevice_resume id (snd (apiFetch_settle o w1))
        (with_world (fst (apiFetch_settle o w1)) u)
  | _ => u
  end.

Definition blank_form : Form :=
  {| form_id := EmptyString; form_name := EmptyString; form_type := EmptyString;
     form_status := EmptyString; form_ip := EmptyString;
     form_location := EmptyString; form_serial := EmptyString;
     form_description := EmptyString |}.

(** The devices page with both dialogs closed. *)
Definition ui_of (w : World) : Ui :=
  {| world := w; deleteTargetId := None; delete_shown := false;
     delete_device_name := EmptyString; delete_button := idle "Delete";
     device_shown := false; device_title := EmptyString; form := blank_form;
     was_validated := false; save_button := idle "Save"; bodies := [] |}.

(** What [apiFetch] settles to; it depends on the outcome alone. *)
Definition api_result (o : FetchOutcome) : Settled :=
  snd (apiFetch_settle o (fresh_world ∅)).

(** The collection requests among the effects of a page. *)
Definition is_reload (e : Effect) : bool :=
  match e with
  | Fetch _ r => String.eqb (method r) "GET" && String.eqb (path r) "/devices"
  | _ => false
  end.

Definition reloads (w : World) : nat :=
  List.length (List.filter is_reload (log w)).

(** * Properties *)

Ltac unfold_controller :=
  unfold sortBy, goToPage, on_status_change, on_type_change, on_clear_filters,
    on_refresh_tick, search_commit, loadDevices, getDevices, apiFetch,
    loadDevices_resume, loadDevices_apply, loadDevices_catch, showToast,
    renderTable, renderPagination, logout, requireAuth, emit, with_state,
    with_dom, with_session, with_inflight, with_timer, with_clock in *.

(** ** escapeHtml *)

Example escapeHtml_markup :
  escapeHtml (JsString "<a href='x'>Q&A</a>")
  = Some "&lt;a href=&#39;x&#39;&gt;Q&amp;A&lt;/a&gt;".
Proof. reflexivity. Qed.

Example escapeHtml_entity_again :
  escapeHtml (JsString "&lt;") = Some "&amp;lt;".
Proof. reflexivity. Qed.

Example escapeHtml_number : escapeHtml (JsOther (Some "-12")) = Some "-12".
Proof. reflexivity. Qed.

Lemma append_assoc (s1 s2 s3 : string) :
  (s1 +:+ s2) +:+ s3 = s1 +:+ (s2 +:+ s3).
Proof.
  induction s1 as [|a s1 IH]; [reflexivity|].
  change (String a ((s1 +:+ s2) +:+ s3) = String a (s1 +:+ (s2 +:+ s3))).
  now f_equal.
Qed.

Lemma replace_all_app c r s1 s2 :
  replace_all c r (s1 +:+ s2) = replace_all c r s1 +:+ replace_all c r s2.
Proof.
  induction s1 as [|a s1 IH]; [reflexivity|].
  change (replace_all c r (String a (s1 +:+ s2))
          = replace_all c r (String a s1) +:+ replace_all c r s2).
  cbn [replace_all].
  destruct (Ascii.eqb a c); rewrite IH.
  - now rewrite append_assoc.
  - reflexivity.
Qed.

Lemma passes_cons a s : passes (String a s) = entity_of a +:+ passes s.
Proof.
  unfold passes, entity_of.
  cbn [replace_all].
  destruct (Ascii.eqb_spec a "&") as [->|Hamp].
  { rewrite !replace_all_app. reflexivity. }
  cbn [replace_all].
  destruct (Ascii.eqb_spec a "<") as [->|Hlt].
  { rewrite !replace_all_app. reflexivity. }
  cbn [replace_all].
  destruct (Ascii.eqb_spec a ">") as [->|Hgt].
  { rewrite !replace_all_app. reflexivity. }
  cbn [replace_all].
  destruct (Ascii.eqb_spec a dquote) as [->|Hdq].
  { rewrite !replace_all_app. reflexivity. }
  cbn [replace_all].
  destruct (Ascii.eqb_spec a squote) as [->|Hsq].
  { reflexivity. }
  reflexivity.
Qed.

Lemma passes_encode s : passes s = entity_encode s.
Proof.
  induction s as [|a s IH]; [reflexivity|].
  rewrite passes_cons. simpl. now rewrite IH.
Qed.

Lemma occurs_app c s1 s2 : occurs c (s1 +:+ s2) = occurs c s1 || occurs c s2.
Proof.
  induction s1 as [|a s1 IH]; simpl; [reflexivity|].
  now rewrite IH, orb_assoc.
Qed.

Lemma entity_of_clean a c :
  c = "<"%char \/ c = ">"%char \/ c = dquote \/ c = squote ->
  occurs c (entity_of a) = false.
Proof.
  intros Hc. unfold entity_of.
  destruct (Ascii.eqb_spec a "&") as [->|Hamp];
    [destruct Hc as [->|[->|[->| ->]]]; reflexivity|].
  destruct (Ascii.eqb_spec a "<") as [->|Hlt];
    [destruct Hc as [->|[->|[->| ->]]]; reflexivity|].
  destruct (Ascii.eqb_spec a ">") as [->|Hgt];
    [destruct Hc as [->|[->|[->| ->]]]; reflexivity|].
  destruct (Ascii.eqb_spec a dquote) as [->|Hdq];
    [destruct Hc as [->|[->|[->| ->]]]; reflexivity|].
  destruct (Ascii.eqb_spec a squote) as [->|Hsq];
    [destruct Hc as [->|[->|[->| ->]]]; reflexivity|].
  simpl. rewrite orb_false_r. apply Ascii.eqb_neq.
  destruct Hc as [->|[->|[->| ->]]]; assumption.
Qed.

Lemma entity_encode_clean s c :
  c = "<"%char \/ c = ">"%char \/ c = dquote \/ c = squote ->
  occurs c (entity_encode s) = false.
Proof.
  intros Hc. induction s as [|a s IH]; [reflexivity|].
  simpl. rewrite occurs_app, IH, (entity_of_clean a c Hc). reflexivity.
Qed.

(** A value whose conversion to a string throws: [escapeHtml] throws with
    it and returns nothing. *)
Lemma escapeHtml_throws :
  escapeHtml (JsOther None) = None
  /\ ~ (exists out, escapeHtml (JsOther None) = Some out).
Proof. split; [reflexivity|]. intros [out H]. discriminate. Qed.

(** C10, as the code has it: [escapeHtml] returns the empty string for
    [null] and [undefined]; for a string, and for any other value that
    [String] converts, it returns the text in which each of the five
    special characters stands as its entity and every other character is
    kept; it throws exactly for a value whose conversion throws; and
    whatever it returns holds no raw [<], [>], double quote or single
    quote. *)
Theorem escapeHtml_entities (v : JsArg) :
  escapeHtml JsUndefined = Some EmptyString
  /\ escapeHtml JsNull = Some EmptyString
  /\ (forall s, escapeHtml (JsString s) = Some (entity_encode s))
  /\ (forall s, escapeHtml (JsOther (Some s)) = Some (entity_encode s))
  /\ (escapeHtml v = None <-> v = JsOther None)
  /\ entity_of "&" = "&amp;" /\ entity_of "<" = "&lt;" /\ entity_of ">" = "&gt;"
  /\ entity_of dquote = "&quot;" /\ entity_of squote = "&#39;"
  /\ (forall a, negb (Ascii.eqb a "&" || Ascii.eqb a "<" || Ascii.eqb a ">"
                      || Ascii.eqb a dquote || Ascii.eqb a squote) = true
                -> entity_of a = String a EmptyString)
  /\ (forall out, escapeHtml v = Some out ->
        occurs "<" out = false /\ occurs ">" out = false
        /\ occurs dquote out = false /\ occurs squote out = false).
Proof.
  assert (S : forall s, escapeHtml (JsString s) = Some (entity_encode s)).
  { intros s. cbn. f_equal. apply passes_encode. }
  assert (O : forall s, escapeHtml (JsOther (Some s)) = Some (entity_encode s)).
  { intros s. cbn. f_equal. apply passes_encode. }
  split; [reflexivity|]. split; [reflexivity|].
  split; [exact S|]. split; [exact O|].
  split.
  { destruct v as [| |s|[s|]]; cbn; split; intros H;
      try discriminate; reflexivity. }
  do 5 (split; [reflexivity|]).
  split.
  { intros a Ha. unfold entity_of.
    apply negb_true_iff in Ha.
    repeat (apply orb_false_iff in Ha; destruct Ha as [Ha ?]).
    repeat match goal with H : Ascii.eqb _ _ = false |- _ => rewrite H; clear H end.
    reflexivity. }
  intros out H.
  assert (E : out = EmptyString \/ exists s, out = entity_encode s).
  { destruct v as [| |s|[s|]].
    - left. cbn in H. congruence.
    - left. cbn in H. congruence.
    - right. exists s. rewrite S in H. congruence.
    - right. exists s. rewrite O in H. congruence.
    - discriminate. }
  destruct E as [->|[s ->]]; [repeat split; reflexivity|].
  repeat split; apply entity_encode_clean; auto.
Qed.

(** ** Pagination range *)

Example range_first_page :
  buildPageRange 0 10 = [Page 0; Page 1; Page 2; Ellipsis; Page 9].
Proof. reflexivity. Qed.

Example range_last_page :
  buildPageRange 9 10 = [Page 0; Ellipsis; Page 7; Page 8; Page 9].
Proof. reflexivity. Qed.

Example range_seven_pages :
  buildPageRange 3 7 = [Page 0; Page 1; Page 2; Page 3; Page 4; Page 5; Page 6].
Proof. reflexivity. Qed.

Lemma increasing_ext (l1 l2 : list Z) :
  increasing l1 -> increasing l2 ->
  (forall y, In y l1 <-> In y l2) -> l1 = l2.
Proof.
  revert l2. induction l1 as [|a l1 IH]; intros [|b l2] H1 H2 Hin.
  - reflexivity.
  - destruct (proj2 (Hin b)). now left.
  - destruct (proj1 (Hin a)). now left.
  - apply StronglySorted_inv in H1 as [S1 F1].
    apply StronglySorted_inv in H2 as [S2 F2].
    rewrite List.Forall_forall in F1, F2.
    assert (a = b) as ->.
    { destruct (proj1 (Hin a) (or_introl eq_refl)) as [E|Ia]; [now symmetry|].
      destruct (proj2 (Hin b) (or_introl eq_refl)) as [E|Ib]; [assumption|].
      specialize (F1 _ Ib). specialize (F2 _ Ia). lia. }
    f_equal. apply IH; try assumption.
    intros y; split; intros Hy.
    + destruct (proj1 (Hin y) (or_intror Hy)) as [E|Iy]; [|assumption].
      specialize (F1 _ Hy). lia.
    + destruct (proj2 (Hin y) (or_intror Hy)) as [E|Iy]; [|assumption].
      specialize (F2 _ Hy). lia.
Qed.

Lemma increasing_filter (f : Z -> bool) (l : list Z) :
  increasing l -> increasing (List.filter f l).
Proof.
  induction 1 as [|a l S IH F]; simpl; [constructor|].
  destruct (f a); [|assumption].
  constructor; [assumption|].
  rewrite List.Forall_forall in *. intros y Hy.
  apply List.filter_In in Hy as [Hy _]. now apply F.
Qed.

Lemma zrange_In lo n y : In y (zrange lo n) <-> lo <= y < lo + Z.of_nat n.
Proof.
  revert lo. induction n as [|n IH]; intros lo; simpl.
  - lia.
  - rewrite IH. lia.
Qed.

Lemma zrange_increasing lo n : increasing (zrange lo n).
Proof.
  revert lo. induction n as [|n IH]; intros lo; simpl; constructor.
  - apply IH.
  - rewrite List.Forall_forall. intros y Hy. apply zrange_In in Hy. lia.
Qed.

Lemma zrange_length lo n : List.length (zrange lo n) = n.
Proof.
  revert lo. induction n as [|n IH]; intros lo; simpl; [reflexivity|].
  now rewrite IH.
Qed.

Lemma map_seq_zrange (a n : nat) :
  map Z.of_nat (seq a n) = zrange (Z.of_nat a) n.
Proof.
  revert a. induction n as [|n IH]; intros a; simpl; [reflexivity|].
  rewrite IH. do 2 f_equal. lia.
Qed.

Lemma array_from_length_zrange total :
  array_from_length total = zrange 0 (Z.to_nat total).
Proof. unfold array_from_length. now rewrite map_seq_zrange. Qed.

Lemma set_add_In x s y : In y (set_add x s) <-> y = x \/ In y s.
Proof.
  unfold set_add. destruct (existsb (Z.eqb x) s) eqn:E.
  - apply List.existsb_exists in E as (z & Hz & Hxz).
    apply Z.eqb_eq in Hxz. subst z.
    split; [now right|]. intros [->|H]; assumption.
  - rewrite List.in_app_iff. simpl. intuition.
Qed.

Lemma NoDup_snoc (x : Z) (s : list Z) :
  List.NoDup s -> ~ In x s -> List.NoDup (s ++ [x]).
Proof.
  induction 1 as [|a s Ha Hs IH]; intros Hx; simpl.
  - constructor; [intros []|constructor].
  - constructor.
    + rewrite List.in_app_iff. simpl. intros [H|[H|[]]]; [now apply Ha|].
      apply Hx. now left.
    + apply IH. intros H. apply Hx. now right.
Qed.

Lemma set_add_NoDup x s : List.NoDup s -> List.NoDup (set_add x s).
Proof.
  intros Hs. unfold set_add. destruct (existsb (Z.eqb x) s) eqn:E; [assumption|].
  apply NoDup_snoc; [assumption|].
  intros Hx.
  assert (existsb (Z.eqb x) s = true); [|congruence].
  apply List.existsb_exists. exists x. split; [assumption|apply Z.eqb_refl].
Qed.

Lemma for_add_In n i s y :
  In y (for_add n i s) <-> In y s \/ i <= y < i + Z.of_nat n.
Proof.
  revert i s. induction n as [|n IH]; intros i s; simpl.
  - intuition lia.
  - rewrite IH, set_add_In. intuition lia.
Qed.

Lemma for_add_NoDup n i s : List.NoDup s -> List.NoDup (for_add n i s).
Proof.
  revert i s. induction n as [|n IH]; intros i s Hs; simpl; [assumption|].
  apply IH, set_add_NoDup, Hs.
Qed.

Lemma sort_insert_In x l y : In y (sort_insert x l) <-> y = x \/ In y l.
Proof.
  induction l as [|a l IH]; simpl.
  - intuition.
  - destruct (x - a <=? 0); simpl; [intuition|].
    rewrite IH. intuition.
Qed.

Lemma sort_asc_In l y : In y (sort_asc l) <-> In y l.
Proof.
  induction l as [|a l IH]; simpl; [reflexivity|].
  rewrite sort_insert_In, IH. intuition.
Qed.

Lemma sort_insert_increasing x l :
  increasing l -> ~ In x l -> increasing (sort_insert x l).
Proof.
  induction 1 as [|a l S IH F]; intros Hx; simpl.
  - constructor; constructor.
  - rewrite List.Forall_forall in F.
    destruct (x - a <=? 0) eqn:E.
    + apply Z.leb_le in E.
      assert (x <> a) by (intros ->; apply Hx; now left).
      constructor; [now constructor; [|apply List.Forall_forall]|].
      apply List.Forall_forall. intros y [<-|Hy]; [lia|].
      specialize (F _ Hy). lia.
    + apply Z.leb_gt in E.
      constructor.
      * apply IH. intros H. apply Hx. now right.
      * apply List.Forall_forall. intros y Hy.
        apply sort_insert_In in Hy as [->|Hy]; [lia|now apply F].
Qed.

Lemma sort_asc_increasing l : List.NoDup l -> increasing (sort_asc l).
Proof.
  induction 1 as [|a l Ha Hl IH]; simpl; [constructor|].
  apply sort_insert_increasing; [assumption|].
  now rewrite sort_asc_In.
Qed.

Lemma page_set_NoDup c t : List.NoDup (page_set c t).
Proof.
  unfold page_set, set_of_list. simpl.
  apply for_add_NoDup. do 3 apply set_add_NoDup. constructor.
Qed.

Lemma page_set_In c t y :
  In y (page_set c t) <->
  y = 0 \/ y = t - 1 \/ y = c
  \/ Z.max 1 (c - 2) <= y <= Z.min (t - 2) (c + 2).
Proof.
  unfold page_set, set_of_list. simpl.
  rewrite for_add_In, !set_add_In. simpl. intuition lia.
Qed.

Lemma spec_pages_In c t y :
  In y (spec_pages c t) <-> 0 <= y < t /\ wanted c t y = true.
Proof.
  unfold spec_pages. rewrite List.filter_In, zrange_In. intuition lia.
Qed.

Lemma sorted_page_set_spec c t :
  0 <= c < t -> 7 < t -> sort_asc (page_set c t) = spec_pages c t.
Proof.
  intros Hc Ht. apply increasing_ext.
  - apply sort_asc_increasing, page_set_NoDup.
  - apply increasing_filter, zrange_increasing.
  - intros y. rewrite sort_asc_In, page_set_In, spec_pages_In.
    unfold wanted.
    rewrite !orb_true_iff, !andb_true_iff, !Z.eqb_eq, !Z.leb_le.
    lia.
Qed.

Lemma increasing_snoc (l : list Z) (b : Z) :
  increasing l -> (forall y, In y l -> y < b) -> increasing (l ++ [b]).
Proof.
  induction 1 as [|a l S IH F]; intros Hb; simpl.
  - constructor; constructor.
  - constructor.
    + apply IH. intros y Hy. apply Hb. now right.
    + apply List.Forall_app. split; [assumption|].
      constructor; [|constructor]. apply Hb. now left.
Qed.

Lemma increasing_frame (a : Z) (l : list Z) (b : Z) :
  increasing l -> (forall y, In y l -> a < y < b) -> a < b ->
  increasing (a :: l ++ [b]).
Proof.
  intros Hl Hin Hab. constructor.
  - apply increasing_snoc; [assumption|]. intros y Hy. now apply Hin.
  - apply List.Forall_app. split.
    + apply List.Forall_forall. intros y Hy. now apply Hin.
    + constructor; [assumption|constructor].
Qed.

(** For more than seven pages the sorted set is page 0, the window around
    the current page, and the last page. *)
Lemma sorted_page_set_window c t :
  0 <= c < t -> 7 < t ->
  sort_asc (page_set c t) =
  0 :: zrange (Z.max 1 (c - 2))
         (Z.to_nat (Z.min (t - 2) (c + 2) + 1 - Z.max 1 (c - 2)))
    ++ [t - 1].
Proof.
  intros Hc Ht. apply increasing_ext.
  - apply sort_asc_increasing, page_set_NoDup.
  - apply increasing_frame; [apply zrange_increasing| |lia].
    intros y Hy. apply zrange_In in Hy. lia.
  - intros y. rewrite sort_asc_In, page_set_In.
    simpl. rewrite List.in_app_iff, zrange_In. simpl. lia.
Qed.

Lemma walk_some_with_ellipses (a : Z) (rest : list Z) :
  walk (Some a) rest =
  match rest with
  | [] => []
  | b :: _ => if 1 <? b - a then Ellipsis :: with_ellipses rest
              else with_ellipses rest
  end.
Proof.
  revert a. induction rest as [|b rest IH]; intros a; [reflexivity|].
  cbn [walk with_ellipses]. rewrite IH.
  destruct (1 <? b - a); reflexivity.
Qed.

Lemma walk_with_ellipses (l : list Z) : walk None l = with_ellipses l.
Proof.
  destruct l as [|a rest]; [reflexivity|].
  cbn [walk with_ellipses]. now rewrite walk_some_with_ellipses.
Qed.

(** C4: for [0 <= currentPage < totalPages] the range is all pages in order
    when there are at most seven, and otherwise the sorted set of page 0,
    the last page, the current page and the pages within distance 2 of it
    inside [1, totalPages-2], with an ellipsis wherever two consecutive
    entries differ by more than one; for ten pages and current page 5 it is
    0, ellipsis, 3, 4, 5, 6, 7, ellipsis, 9. *)
Theorem buildPageRange_spec (current total : Z) :
  0 <= current < total ->
  buildPageRange current total =
    (if total <=? 7 then map Page (zrange 0 (Z.to_nat total))
     else with_ellipses (spec_pages current total))
  /\ buildPageRange 5 10 =
       [Page 0; Ellipsis; Page 3; Page 4; Page 5; Page 6; Page 7;
        Ellipsis; Page 9].
Proof.
  intros Hc. split; [|reflexivity].
  unfold buildPageRange. destruct (total <=? 7) eqn:E.
  - now rewrite array_from_length_zrange.
  - apply Z.leb_gt in E.
    rewrite walk_with_ellipses. f_equal.
    now apply sorted_page_set_spec.
Qed.

Lemma buildPageRange_spec_witness :
  0 <= 5 < 10 /\
  buildPageRange 5 10 = with_ellipses (spec_pages 5 10).
Proof.
  split; [lia|]. exact (proj1 (buildPageRange_spec 5 10 ltac:(lia))).
Defined.

Lemma count_pages_walk prev l : count_pages (walk prev l) = List.length l.
Proof.
  revert prev. unfold count_pages.
  induction l as [|p l IH]; intros prev; [reflexivity|].
  destruct prev as [q|]; cbn [walk].
  - destruct (1 <? p - q); simpl; now rewrite IH.
  - simpl. now rewrite IH.
Qed.

Lemma count_ellipses_consecutive (n : nat) (lo last : Z) :
  (count_ellipses (walk (Some (lo - 1)%Z) (zrange lo n ++ [last])) <= 1)%nat.
Proof.
  revert lo. unfold count_ellipses.
  induction n as [|n IH]; intros lo; simpl.
  - destruct (1 <? last - (lo - 1)); simpl; lia.
  - replace (1 <? lo - (lo - 1)) with false by (symmetry; apply Z.ltb_ge; lia).
    simpl. specialize (IH (lo + 1)).
    now replace (lo + 1 - 1) with lo in IH by lia.
Qed.

Lemma count_ellipses_window (q : Z) (n : nat) (lo last : Z) :
  (count_ellipses (walk (Some q) (zrange lo n ++ [last])) <= 2)%nat.
Proof.
  destruct n as [|n].
  - unfold count_ellipses. simpl.
    destruct (1 <? last - q); simpl; lia.
  - pose proof (count_ellipses_consecutive n (lo + 1) last) as H.
    replace (lo + 1 - 1) with lo in H by lia.
    unfold count_ellipses in *. simpl.
    destruct (1 <? lo - q); simpl; lia.
Qed.

Lemma count_map_Page (l : list Z) :
  count_pages (map Page l) = List.length l
  /\ count_ellipses (map Page l) = 0%nat.
Proof.
  unfold count_pages, count_ellipses.
  induction l as [|a l [IH1 IH2]]; simpl; [split; reflexivity|].
  rewrite IH1, IH2. split; reflexivity.
Qed.

(** C5: for [0 <= currentPage < totalPages] the range holds at most seven
    page numbers and at most two ellipses, however many pages there are. *)
Theorem buildPageRange_bounded (current total : Z) :
  0 <= current < total ->
  (count_pages (buildPageRange current total) <= 7)%nat
  /\ (count_ellipses (buildPageRange current total) <= 2)%nat.
Proof.
  intros Hc. unfold buildPageRange. destruct (total <=? 7) eqn:E.
  - apply Z.leb_le in E. rewrite array_from_length_zrange.
    destruct (count_map_Page (zrange 0 (Z.to_nat total))) as [-> ->].
    rewrite zrange_length. lia.
  - apply Z.leb_gt in E.
    rewrite sorted_page_set_window by lia.
    split.
    + rewrite count_pages_walk. simpl.
      rewrite List.length_app, zrange_length. simpl. lia.
    + cbn [walk]. unfold count_ellipses. cbn [List.filter is_page negb].
      apply count_ellipses_window.
Qed.

Lemma buildPageRange_bounded_witness :
  0 <= 40 < 100 /\
  (count_pages (buildPageRange 40 100) <= 7)%nat
  /\ (count_ellipses (buildPageRange 40 100) <= 2)%nat.
Proof.
  split; [lia|]. apply (buildPageRange_bounded 40 100). lia.
Defined.

(** ** Sorting and paging *)

Lemma requests_emit (e : Effect) (w : World) :
  requests (emit e w) = requests w ++ (if is_fetch e then [e] else []).
Proof.
  unfold requests, emit. simpl. rewrite List.filter_app. simpl.
  destruct (is_fetch e); reflexivity.
Qed.

(** C6: [sortBy(col)] flips the direction and keeps the column when [col] is
    the current sort column, and otherwise makes [col] the sort column with
    ascending direction; either way the page index becomes 0, the direction
    afterwards is one of the two defined values, and the other fields of the
    query state are untouched. *)
Theorem sortBy_spec (col : string) (w : World) :
  let s := state w in
  let s' := state (sortBy col w) in
  (sort s = col ->
     sort s' = sort s
     /\ (direction s = "asc" -> direction s' = "desc")
     /\ (direction s = "desc" -> direction s' = "asc"))
  /\ (sort s <> col -> sort s' = col /\ direction s' = "asc")
  /\ page s' = 0
  /\ (direction s' = "asc" \/ direction s' = "desc")
  /\ size s' = size s /\ status s' = status s /\ type s' = type s
  /\ q s' = q s.
Proof.
  unfold_controller. simpl.
  destruct (String.eqb_spec (sort (state w)) col) as [Hc|Hc];
    destruct (String.eqb_spec (direction (state w)) "asc") as [Hd|Hd];
    simpl; repeat split; auto; try congruence; intros; try congruence.
Qed.

(** C8: [goToPage(p)] with [p] negative or not below [totalPages] leaves the
    whole page as it is (no state change, no request, no notice); with
    [0 <= p < totalPages] it sets the page index to [p], keeps every other
    field of the query state, and sends exactly one collection request, for
    the updated state. *)
Theorem goToPage_spec (p : Z) (w : World) :
  ((p < 0 \/ totalPages (state w) <= p) -> goToPage p w = w)
  /\ (0 <= p < totalPages (state w) ->
      let s := state w in
      let s' := state (goToPage p w) in
      page s' = p
      /\ size s' = size s /\ sort s' = sort s /\ direction s' = direction s
      /\ status s' = status s /\ type s' = type s /\ q s' = q s
      /\ requests (goToPage p w) =
           requests w ++
           [Fetch (next_request w)
              {| method := "GET"; path := "/devices";
                 query := getDevices_query (set_page p (state w));
                 authorization := getAuthHeader w |}]).
Proof.
  split.
  - intros H. unfold goToPage.
    replace ((p <? 0) || (totalPages (state w) <=? p)) with true; [reflexivity|].
    symmetry. apply orb_true_iff. rewrite Z.ltb_lt, Z.leb_le. exact H.
  - intros H. unfold goToPage.
    replace ((p <? 0) || (totalPages (state w) <=? p)) with false.
    2:{ symmetry. apply orb_false_iff. rewrite Z.ltb_ge, Z.leb_gt. lia. }
    unfold_controller. unfold requests, getAuthHeader. simpl.
    rewrite !List.filter_app. simpl. rewrite List.app_nil_r.
    repeat split; reflexivity.
Qed.

(** ** Responses *)

Lemma respond_pending (id : nat) (o : FetchOutcome) (k : Cont) (w : World) :
  inflight w !! id = Some k ->
  respond id o w =
  let w1 := with_inflight (delete id (inflight w)) (next_request w) w in
  match k with
  | KLoadDevices =>
      loadDevices_resume (snd (apiFetch_settle o w1)) (fst (apiFetch_settle o w1))
  | KCaller => fst (apiFetch_settle o w1)
  end.
Proof.
  intros H. unfold respond. rewrite H. cbv zeta.
  destruct (apiFetch_settle o _) as [w2 r]. reflexivity.
Qed.

Lemma unauthorized_not_ok (r : Response) :
  resp_status r = 401 -> resp_ok r = false.
Proof. intros H. unfold resp_ok. rewrite H. reflexivity. Qed.

Lemma renderPagination_frame (w : World) :
  state (renderPagination w) = state w
  /\ table_content (dom (renderPagination w)) = table_content (dom w)
  /\ log (renderPagination w) = log w
  /\ sessionStorage (renderPagination w) = sessionStorage w
  /\ location_href (renderPagination w) = location_href w
  /\ inflight (renderPagination w) = inflight w.
Proof.
  unfold renderPagination. destruct (totalPages (state w) <=? 1);
    repeat split; reflexivity.
Qed.

Lemma renderTable_frame (l : list Device) (w : World) :
  state (renderTable l w) = state w
  /\ displayed_items (table_content (dom (renderTable l w))) = l
  /\ log (renderTable l w) = log w
  /\ sessionStorage (renderTable l w) = sessionStorage w
  /\ location_href (renderTable l w) = location_href w
  /\ inflight (renderTable l w) = inflight w.
Proof. destruct l; repeat split; reflexivity. Qed.

Lemma table_after_catch (msg : string) (w : World) :
  table_content (dom (loadDevices_catch msg w)) = load_error msg.
Proof. reflexivity. Qed.

Lemma table_after_failure (o : FetchOutcome) (w : World) :
  fetch_failed o = true ->
  exists msg,
    table_content
      (dom (loadDevices_resume (snd (apiFetch_settle o w))
              (fst (apiFetch_settle o w)))) = load_error msg
    /\ (forall m, o = FetchRejected m -> msg = m)
    /\ (forall r, o = FetchResponse r -> resp_status r <> 401 ->
                  msg = error_message r)
    /\ (forall r, o = FetchResponse r -> resp_status r = 401 ->
                  msg = type_error_undefined w).
Proof.
  destruct o as [m|r]; simpl; intros Hf.
  - exists m. split; [reflexivity|]. split; [congruence|].
    split; discriminate.
  - destruct (Z.eqb_spec (resp_status r) 401) as [E|E]; simpl.
    + exists (type_error_undefined w). split; [reflexivity|].
      split; [discriminate|]. split; [|reflexivity].
      intros r' [= <-] Hne. contradiction.
    + rewrite Hf. simpl. exists (error_message r). split; [reflexivity|].
      split; [discriminate|]. split.
      * now intros r' [= <-] _.
      * intros r' [= <-] H. contradiction.
Qed.

(** The message [apiFetch] throws with, case by case. *)
Lemma error_message_cases (r : Response) :
  (forall obj m, resp_body r = BodyObject obj -> j_message obj = Some m ->
     error_message r = m)
  /\ (forall obj e, resp_body r = BodyObject obj -> j_message obj = None ->
        j_error obj = Some e -> error_message r = e)
  /\ (forall obj, resp_body r = BodyObject obj -> j_message obj = None ->
        j_error obj = None ->
        error_message r = "HTTP " +:+ show_Z (resp_status r))
  /\ (resp_body r = BodyNull ->
      error_message r = "HTTP " +:+ show_Z (resp_status r))
  /\ (forall e, resp_body r = BodyInvalid e ->
        error_message r = "HTTP " +:+ show_Z (resp_status r)).
Proof.
  unfold error_message. repeat split; intros.
  - now rewrite H, H0.
  - now rewrite H, H0, H1.
  - now rewrite H, H0, H1.
  - now rewrite H.
  - now rewrite H.
Qed.


Lemma loadDevices_apply_frame (data : JsonObject) (w : World) :
  result_summary (loadDevices_apply data w) = summary_of data
  /\ page (state (loadDevices_apply data w)) = page (state w)
  /\ log (loadDevices_apply data w) = log w
  /\ sessionStorage (loadDevices_apply data w) = sessionStorage w
  /\ location_href (loadDevices_apply data w) = location_href w
  /\ inflight (loadDevices_apply data w) = inflight w.
Proof.
  unfold loadDevices_apply, result_summary, summary_of. cbv zeta.
  match goal with
  | |- context [renderPagination ?x] =>
      destruct (renderPagination_frame x) as (-> & -> & -> & -> & -> & ->)
  end.
  match goal with
  | |- context [renderTable ?l ?x] =>
      destruct (renderTable_frame l x) as (-> & -> & -> & -> & -> & ->)
  end.
  repeat split; reflexivity.
Qed.

(** A successful collection response is applied when it arrives, whichever
    request it answers. *)
Lemma respond_applies (id : nat) (data : JsonObject) (w : World) :
  inflight w !! id = Some KLoadDevices ->
  result_summary (respond id (ok_response data) w) = summary_of data
  /\ inflight (respond id (ok_response data) w) = delete id (inflight w).
Proof.
  intros H. rewrite (respond_pending _ _ _ _ H). cbv zeta.
  unfold ok_response. simpl.
  destruct (loadDevices_apply_frame data
              (with_inflight (delete id (inflight w)) (next_request w) w))
    as (-> & _ & _ & _ & _ & ->).
  split; reflexivity.
Qed.

Lemma loadDevices_inflight (w : World) :
  inflight (loadDevices w) = <[next_request w := KLoadDevices]> (inflight w)
  /\ next_request (loadDevices w) = S (next_request w).
Proof. split; reflexivity. Qed.

(** Request 0 (A) and request 1 (B) are issued in that order; B's response
    arrives first, A's second: the summary is then A's, not B's. *)
Lemma late_response_overwrites :
  let w := run (fresh_world logged_in)
             [Reload; Reload;
              Respond 1 (ok_response fresh_data);
              Respond 0 (ok_response stale_data)] in
  result_summary w = summary_of stale_data
  /\ result_summary w <> summary_of fresh_data.
Proof. split; [reflexivity|discriminate]. Qed.

(** C1, as the code has it: with two reloads A and B in flight, each
    response is applied on arrival, so after both have arrived the Result
    Summary is the data of the response that arrived last: B's when the
    responses come in the order of the requests, A's when A's response
    comes after B's. *)
Theorem last_arrival_wins (w : World) (dataA dataB : JsonObject) :
  let idA := next_request w in
  let idB := S idA in
  let w2 := run w [Reload; Reload] in
  result_summary
    (run w2 [Respond idA (ok_response dataA); Respond idB (ok_response dataB)])
  = summary_of dataB
  /\ result_summary
       (run w2 [Respond idB (ok_response dataB); Respond idA (ok_response dataA)])
     = summary_of dataA.
Proof.
  cbv zeta. cbn [run fold_left step].
  assert (HA : inflight (loadDevices (loadDevices w)) !! next_request w
               = Some KLoadDevices).
  { cbn. rewrite lookup_insert_ne by lia. apply lookup_insert_eq. }
  assert (HB : inflight (loadDevices (loadDevices w)) !! S (next_request w)
               = Some KLoadDevices).
  { cbn. apply lookup_insert_eq. }
  split.
  - apply respond_applies.
    rewrite (proj2 (respond_applies _ dataA _ HA)).
    rewrite lookup_delete_ne by lia. exact HB.
  - apply respond_applies.
    rewrite (proj2 (respond_applies _ dataB _ HB)).
    rewrite lookup_delete_ne by lia. exact HA.
Qed.

(** ** Session teardown *)

Lemma loadDevices_resume_frame (r : Settled) (w : World) :
  page (state (loadDevices_resume r w)) = page (state w)
  /\ sessionStorage (loadDevices_resume r w) = sessionStorage w
  /\ location_href (loadDevices_resume r w) = location_href w
  /\ inflight (loadDevices_resume r w) = inflight w
  /\ teardowns (loadDevices_resume r w) = teardowns w.
Proof.
  assert (C : forall msg,
             page (state (loadDevices_catch msg w)) = page (state w)
             /\ sessionStorage (loadDevices_catch msg w) = sessionStorage w
             /\ location_href (loadDevices_catch msg w) = location_href w
             /\ inflight (loadDevices_catch msg w) = inflight w
             /\ teardowns (loadDevices_catch msg w) = teardowns w).
  { intros msg. repeat split; try reflexivity.
    unfold teardowns. cbn. rewrite List.filter_app. cbn.
    now rewrite List.app_nil_r. }
  destruct r as [[| |data]|msg]; try apply C.
  unfold loadDevices_resume, teardowns.
  destruct (loadDevices_apply_frame data w) as (_ & -> & -> & -> & -> & ->).
  repeat split; reflexivity.
Qed.

Lemma logout_effect (w : World) :
  sessionStorage (logout w) !! AUTH_KEY = None
  /\ sessionStorage (logout w) !! USER_KEY = None
  /\ location_href (logout w) = "index.html"
  /\ teardowns (logout w) = S (teardowns w)
  /\ inflight (logout w) = inflight w
  /\ state (logout w) = state w.
Proof.
  repeat split; try reflexivity.
  - cbn. rewrite lookup_delete_ne by discriminate. apply lookup_delete_eq.
  - cbn. apply lookup_delete_eq.
  - unfold teardowns. cbn. rewrite List.filter_app. cbn.
    rewrite List.length_app. cbn. lia.
Qed.

Lemma logout_idempotent (w : World) :
  sessionStorage (logout (logout w)) = sessionStorage (logout w)
  /\ location_href (logout (logout w)) = location_href (logout w).
Proof.
  split; [|reflexivity]. cbn.
  apply map_eq. intros key. rewrite !lookup_delete.
  repeat case_decide; reflexivity.
Qed.

(** A reload and a delete call are both in flight and each receives a 401:
    the session is torn down twice, not once. *)
Lemma teardown_per_response :
  let w := run (fresh_world logged_in)
             [Reload; ApiCall "DELETE" "/devices/7f3c";
              Respond 0 unauthorized; Respond 1 unauthorized] in
  teardowns w = 2%nat /\ teardowns w <> 1%nat.
Proof. split; [reflexivity|discriminate]. Qed.

(** C3, as the code has it: every response with status 401 that reaches a
    pending [apiFetch] call, from a reload or from any other caller, makes
    [apiFetch] run [logout] (the stored credentials are removed and the
    location becomes the login page) and resolve without throwing an HTTP
    error; [logout] runs once for each such response, and running it again
    leaves the session as the first run left it. *)
Theorem unauthorized_teardown (w : World) (id : nat) (k : Cont) (r : Response) :
  inflight w !! id = Some k ->
  resp_status r = 401 ->
  let w' := respond id (FetchResponse r) w in
  teardowns w' = S (teardowns w)
  /\ sessionStorage w' !! AUTH_KEY = None
  /\ sessionStorage w' !! USER_KEY = None
  /\ location_href w' = "index.html"
  /\ snd (apiFetch_settle (FetchResponse r) w) = Fulfilled AUndefined
  /\ sessionStorage (logout w') = sessionStorage w'
  /\ location_href (logout w') = location_href w'.
Proof.
  intros Hid Hs. cbv zeta.
  rewrite (respond_pending _ _ _ _ Hid). cbv zeta.
  unfold apiFetch_settle. rewrite Hs. cbn [Z.eqb Pos.eqb fst snd].
  set (w1 := with_inflight (delete id (inflight w)) (next_request w) w).
  destruct (logout_effect w1) as (Ha & Hu & Hl & Ht & _ & _).
  destruct (logout_idempotent w1) as (Hi1 & Hi2).
  destruct k.
  - destruct (loadDevices_resume_frame (Fulfilled AUndefined) (logout w1))
      as (_ & Es & El & _ & Et).
    rewrite Es, El, Et.
    repeat split; try assumption; try reflexivity.
  - repeat split; try assumption; try reflexivity.
Qed.

Lemma unauthorized_teardown_witness :
  teardowns (respond 0 unauthorized boot) = 1%nat
  /\ sessionStorage (respond 0 unauthorized boot) !! AUTH_KEY = None.
Proof.
  destruct (unauthorized_teardown boot 0%nat KLoadDevices
              {| resp_status := 401; resp_body := BodyNull |}
              eq_refl eq_refl) as (Ht & Ha & _).
  split; [exact Ht|exact Ha].
Defined.

(** ** Page index *)

Lemma apiFetch_settle_state (o : FetchOutcome) (w : World) :
  state (fst (apiFetch_settle o w)) = state w.
Proof.
  destruct o as [m|r]; simpl; [reflexivity|].
  destruct (resp_status r =? 401); [reflexivity|].
  destruct (negb (resp_ok r)); [reflexivity|].
  destruct (resp_status r =? 204); [reflexivity|].
  destruct (resp_body r); reflexivity.
Qed.

Lemma respond_page (id : nat) (o : FetchOutcome) (w : World) :
  page (state (respond id o w)) = page (state w).
Proof.
  destruct (inflight w !! id) as [k|] eqn:H.
  - rewrite (respond_pending _ _ _ _ H). cbv zeta. destruct k.
    + rewrite (proj1 (loadDevices_resume_frame _ _)).
      now rewrite apiFetch_settle_state.
    + now rewrite apiFetch_settle_state.
  - unfold respond. now rewrite H.
Qed.

Lemma commits_page (due : list (nat * Z)) (w : World) :
  0 <= page (state w) ->
  0 <= page (state (fold_left (fun acc _ => search_commit acc) due w)).
Proof.
  revert w. induction due as [|e due IH]; intros w Hw; simpl; [assumption|].
  apply IH. simpl. lia.
Qed.

Lemma step_page_nonneg (w : World) (e : Event) :
  0 <= page (state w) -> 0 <= page (state (step w e)).
Proof.
  intros Hw. destruct e; simpl; try assumption; try (cbn; lia).
  - unfold elapse. cbv zeta. now apply commits_page.
  - unfold goToPage.
    destruct (p <? 0) eqn:E1; [assumption|].
    destruct (totalPages (state w) <=? p) eqn:E2; [assumption|].
    apply Z.ltb_ge in E1. exact E1.
  - unfold on_refresh_tick. destruct anyOpen; assumption.
  - now rewrite respond_page.
Qed.

Lemma run_page_nonneg (es : list Event) (w : World) :
  0 <= page (state w) -> 0 <= page (state (run w es)).
Proof.
  revert w. induction es as [|e es IH]; intros w Hw; [assumption|].
  apply IH, step_page_nonneg, Hw.
Qed.

(** Page 5 of 10 is on display when a reload reports that only 3 pages are
    left: the page index stays 5, and no further request is sent. *)
Lemma page_index_not_clamped :
  let w := run boot
             [Respond 0 (ok_response (page_data [sample_device] 200 10));
              GoToPage 5;
              Respond 1 (ok_response (page_data [sample_device] 60 3))] in
  page (state w) = 5 /\ totalPages (state w) = 3
  /\ ~ page (state w) < totalPages (state w)
  /\ List.length (requests w) = 2%nat.
Proof.
  cbv zeta. split; [reflexivity|]. split; [reflexivity|].
  split; [|reflexivity].
  intros H. vm_compute in H. discriminate.
Qed.

(** C2, as the code has it: after any sequence of events the page index is
    a non-negative integer; [goToPage(p)] takes effect only for
    [0 <= p < totalPages], so right after an accepted call the page index
    is below [totalPages]; sorting, filtering and a search commit set it to
    0; and a response leaves it as it is while replacing [totalPages]: the
    index is not clamped and page 0 is not reloaded. *)
Theorem page_index_guarantee (w : World) (es : list Event) :
  0 <= page (state w) ->
  let w' := run w es in
  0 <= page (state w')
  /\ (forall p, 0 <= p < totalPages (state w') ->
        page (state (goToPage p w')) = p
        /\ page (state (goToPage p w')) < totalPages (state (goToPage p w')))
  /\ (forall p, ~ 0 <= p < totalPages (state w') -> goToPage p w' = w')
  /\ (forall col, page (state (sortBy col w')) = 0)
  /\ (forall v, page (state (on_status_change v w')) = 0)
  /\ (forall v, page (state (on_type_change v w')) = 0)
  /\ page (state (on_clear_filters w')) = 0
  /\ page (state (search_commit w')) = 0
  /\ (forall id o, page (state (respond id o w')) = page (state w')).
Proof.
  intros Hw. cbv zeta. split; [now apply run_page_nonneg|].
  generalize (run w es) as w'. intros w'.
  split.
  { intros p Hp. unfold goToPage.
    replace ((p <? 0) || (totalPages (state w') <=? p)) with false.
    2:{ symmetry. apply orb_false_iff. rewrite Z.ltb_ge, Z.leb_gt. lia. }
    cbn. lia. }
  split.
  { intros p Hp. unfold goToPage.
    replace ((p <? 0) || (totalPages (state w') <=? p)) with true; [reflexivity|].
    symmetry. apply orb_true_iff. rewrite Z.ltb_lt, Z.leb_le. lia. }
  repeat split; try reflexivity.
  intros id o. apply respond_page.
Qed.

Lemma page_index_guarantee_witness :
  0 <= page (state
               (run boot
                  [Respond 0 (ok_response (page_data [sample_device] 200 10));
                   GoToPage 5;
                   Respond 1 (ok_response (page_data [sample_device] 60 3))])).
Proof.
  apply (page_index_guarantee boot
           [Respond 0%nat (ok_response (page_data [sample_device] 200 10));
            GoToPage 5;
            Respond 1%nat (ok_response (page_data [sample_device] 60 3))]).
  change (0 <= 0). lia.
Defined.

(** ** Search debounce *)

Example trim_both_ends : trim "  core switch " = "core switch".
Proof. reflexivity. Qed.

Example trim_unicode :
  trim (bytes [194; 160; 9]%nat +:+ "core switch" +:+ bytes [226; 128; 168; 239; 187; 191]%nat)
  = "core switch".
Proof. reflexivity. Qed.

Example trim_keeps_letters :
  trim (bytes [195; 160]%nat +:+ " la carte " +:+ bytes [195; 160]%nat)
  = bytes [195; 160]%nat +:+ " la carte " +:+ bytes [195; 160]%nat.
Proof. reflexivity. Qed.

Example burst_of_three :
  let w := run boot (burst_events [("a", 100); ("ab", 349); ("abc", 350)]) in
  q (state w) = "abc" /\ List.length (requests w) = 2%nat /\ timers w = [].
Proof. repeat split; reflexivity. Qed.

Lemma clearTimeout_cancellable (w : World) :
  cancellable w = true -> clearTimeout (searchDebounce w) (timers w) = [].
Proof.
  unfold cancellable, clearTimeout.
  destruct (searchDebounce w) as [h|]; induction (timers w) as [|e ts IH];
    simpl; intros H; try reflexivity; try discriminate.
  apply andb_true_iff in H as [He Hts]. rewrite He. simpl. now apply IH.
Qed.

Lemma input_then_wait (x : string) (gap : Z) (w : World) :
  cancellable w = true -> gap < 350 ->
  let w' := run w [SearchInput x; Elapse gap] in
  cancellable w' = true /\ state w' = state w /\ log w' = log w
  /\ next_request w' = next_request w
  /\ sessionStorage w' = sessionStorage w.
Proof.
  intros Hc Hg. cbv zeta. cbn [run fold_left step].
  unfold elapse, on_search_input. cbn [timers with_timer with_dom clock
    searchDebounce next_handle]. rewrite (clearTimeout_cancellable w Hc).
  cbn [app List.filter snd].
  replace (clock w + 350 <=? clock w + Z.max 0 gap) with false
    by (symmetry; apply Z.leb_gt; lia).
  cbn. rewrite Nat.eqb_refl. repeat split; reflexivity.
Qed.

Lemma input_then_silence (x : string) (d : Z) (w : World) :
  cancellable w = true -> 350 <= d ->
  let w' := run w [SearchInput x; Elapse d] in
  state w' = set_page 0 (set_q (trim x) (state w))
  /\ log w' = log w ++
       [Fetch (next_request w)
          {| method := "GET"; path := "/devices";
             query := getDevices_query (set_page 0 (set_q (trim x) (state w)));
             authorization := getAuthHeader w |}]
  /\ timers w' = [].
Proof.
  intros Hc Hd. cbv zeta. cbn [run fold_left step].
  unfold elapse, on_search_input. cbn [timers with_timer with_dom clock
    searchDebounce next_handle]. rewrite (clearTimeout_cancellable w Hc).
  cbn [app List.filter snd].
  replace (clock w + 350 <=? clock w + Z.max 0 d) with true
    by (symmetry; apply Z.leb_le; lia).
  cbn. repeat split; reflexivity.
Qed.

Lemma commits_timers (due : list (nat * Z)) (w : World) :
  timers (fold_left (fun acc _ => search_commit acc) due w) = timers w
  /\ searchDebounce (fold_left (fun acc _ => search_commit acc) due w)
     = searchDebounce w.
Proof.
  revert w. induction due as [|e due IH]; intros w; simpl; [now split|].
  destruct (IH (search_commit w)) as [-> ->]. now split.
Qed.

Lemma respond_timers (id : nat) (o : FetchOutcome) (w : World) :
  timers (respond id o w) = timers w
  /\ searchDebounce (respond id o w) = searchDebounce w.
Proof.
  unfold respond. destruct (inflight w !! id) as [k|]; [|now split].
  destruct o as [m|r]; simpl.
  - destruct k; now split.
  - destruct (resp_status r =? 401); [destruct k; now split|].
    destruct (negb (resp_ok r)); [destruct k; now split|].
    destruct (resp_status r =? 204); [destruct k; now split|].
    destruct (resp_body r) as [e| |data]; destruct k; try now split.
    unfold loadDevices_resume, loadDevices_apply, renderPagination, renderTable.
    cbv zeta. destruct (j_content data) as [[|d l]|]; simpl;
      match goal with
      | |- context [if ?c then _ else _] => destruct c
      end; now split.
Qed.

(** The hypothesis of the debounce theorem holds in every world the page
    can reach. *)
Lemma step_cancellable (w : World) (e : Event) :
  cancellable w = true -> cancellable (step w e) = true.
Proof.
  intros Hc. destruct e; simpl; try exact Hc.
  - unfold cancellable, on_search_input. cbn [timers with_timer with_dom
      searchDebounce next_handle clock].
    rewrite (clearTimeout_cancellable w Hc). simpl.
    now rewrite Nat.eqb_refl.
  - unfold cancellable, elapse in *. cbv zeta.
    match goal with
    | |- context [fold_left _ ?due ?x] =>
        destruct (commits_timers due x) as [-> ->]
    end.
    cbn [timers searchDebounce with_clock with_timer].
    rewrite List.forallb_forall in *. intros x Hx.
    apply List.filter_In in Hx as [Hx _]. now apply Hc.
  - unfold goToPage. destruct ((p <? 0) || (totalPages (state w) <=? p)); exact Hc.
  - unfold on_refresh_tick. destruct anyOpen; exact Hc.
  - unfold cancellable in *.
    destruct (respond_timers id o w) as [-> ->]. exact Hc.
Qed.

Lemma reachable_cancellable (ss : gmap string string) (es : list Event) :
  cancellable (run (DOMContentLoaded (fresh_world ss)) es) = true.
Proof.
  assert (H : cancellable (DOMContentLoaded (fresh_world ss)) = true).
  { unfold DOMContentLoaded, requireAuth. cbn.
    destruct (ss !! AUTH_KEY) as [[|? ?]|]; reflexivity. }
  revert H. generalize (DOMContentLoaded (fresh_world ss)) as w.
  induction es as [|e es IH]; intros w Hw; [exact Hw|].
  apply IH, step_cancellable, Hw.
Qed.

(** The committed value is trimmed: an input of [" a"] commits ["a"]. *)
Lemma commit_is_trimmed :
  q (state (run boot [SearchInput " a"; Elapse 350])) = "a"
  /\ q (state (run boot [SearchInput " a"; Elapse 350])) <> " a".
Proof. split; [reflexivity|discriminate]. Qed.

(** C7, as the code has it: in a burst of input events, each less than
    350 ms after the one before and the last followed by at least 350 ms of
    silence, every event cancels the commit pending from the one before, and
    exactly one commit happens: the search text becomes the text of the last
    event with leading and trailing white space removed, the page index
    becomes 0, and exactly one collection request, for that state, is
    sent. *)
Theorem debounce_commits_last
    (w : World) (prefix : list (string * Z)) (x : string) (d : Z) :
  cancellable w = true ->
  forallb (fun xd => snd xd <? 350) prefix = true ->
  350 <= d ->
  let w' := run w (burst_events (prefix ++ [(x, d)])) in
  q (state w') = trim x /\ page (state w') = 0
  /\ size (state w') = size (state w) /\ sort (state w') = sort (state w)
  /\ direction (state w') = direction (state w)
  /\ status (state w') = status (state w) /\ type (state w') = type (state w)
  /\ requests w' =
       requests w ++
       [Fetch (next_request w)
          {| method := "GET"; path := "/devices";
             query := getDevices_query (state w');
             authorization := getAuthHeader w |}]
  /\ timers w' = [].
Proof.
  revert w. induction prefix as [|[x1 g1] prefix IH]; intros w Hc Hp Hd.
  - cbv zeta. simpl app. unfold burst_events. cbn [flat_map app fst snd].
    destruct (input_then_silence x d w Hc Hd) as (Es & El & Et).
    cbn [run fold_left step] in Es, El, Et |- *.
    unfold requests. rewrite !Es, El, Et, List.filter_app.
    repeat split; reflexivity.
  - simpl in Hp. apply andb_true_iff in Hp as [Hg Hp].
    apply Z.ltb_lt in Hg. simpl in Hg.
    destruct (input_then_wait x1 g1 w Hc Hg) as (Hc' & Es & El & En & Ess).
    specialize (IH _ Hc' Hp Hd). cbv zeta in IH.
    cbv zeta. unfold burst_events in *.
    cbn [app flat_map fst snd].
    change (run w (SearchInput x1 :: Elapse g1 :: ?l))
      with (run (run w [SearchInput x1; Elapse g1]) l).
    unfold requests, getAuthHeader in *.
    rewrite Es, El, En, Ess in IH. exact IH.
Qed.

Lemma debounce_commits_last_witness :
  q (state (run boot (burst_events [("a", 100); ("ab", 200); ("abc", 400)])))
  = "abc".
Proof.
  destruct (debounce_commits_last boot [("a", 100); ("ab", 200)] "abc" 400
              eq_refl eq_refl ltac:(lia)) as [H _].
  exact H.
Defined.

(** * Further properties *)

(** ** The pagination control *)

Lemma pages_of_walk (prev : option Z) (l : list Z) : pages_of (walk prev l) = l.
Proof.
  revert prev. induction l as [|p l IH]; intros prev; [reflexivity|].
  destruct prev as [q|]; cbn [walk].
  - destruct (1 <? p - q); cbn; now rewrite IH.
  - cbn. now rewrite IH.
Qed.

Lemma pages_of_map_Page (l : list Z) : pages_of (map Page l) = l.
Proof. induction l as [|p l IH]; [reflexivity|]. cbn. now f_equal. Qed.

Lemma pages_of_range (c t : Z) :
  pages_of (buildPageRange c t) =
  if t <=? 7 then zrange 0 (Z.to_nat t) else sort_asc (page_set c t).
Proof.
  unfold buildPageRange. destruct (t <=? 7).
  - now rewrite array_from_length_zrange, pages_of_map_Page.
  - apply pages_of_walk.
Qed.

Lemma pages_of_range_increasing (c t : Z) :
  increasing (pages_of (buildPageRange c t)).
Proof.
  rewrite pages_of_range. destruct (t <=? 7).
  - apply zrange_increasing.
  - apply sort_asc_increasing, page_set_NoDup.
Qed.

Lemma pages_of_range_In (c t p : Z) :
  In p (pages_of (buildPageRange c t)) <->
  if t <=? 7 then 0 <= p < t
  else p = 0 \/ p = t - 1 \/ p = c
       \/ Z.max 1 (c - 2) <= p <= Z.min (t - 2) (c + 2).
Proof.
  rewrite pages_of_range. destruct (t <=? 7) eqn:E.
  - rewrite zrange_In. lia.
  - now rewrite sort_asc_In, page_set_In.
Qed.

Lemma range_pages_facts (current total : Z) :
  0 <= current < total ->
  let ps := pages_of (buildPageRange current total) in
  increasing ps
  /\ (forall p, In p ps -> 0 <= p < total)
  /\ In 0 ps /\ In (total - 1) ps /\ In current ps
  /\ (forall p, 0 <= p < total -> Z.abs (p - current) <= 2 -> In p ps).
Proof.
  intros Hc. cbv zeta. split; [apply pages_of_range_increasing|].
  assert (M : forall p, In p (pages_of (buildPageRange current total)) <->
                        0 <= p < total
                        /\ (total <= 7 \/ p = 0 \/ p = total - 1 \/ p = current
                            \/ Z.max 1 (current - 2) <= p
                               <= Z.min (total - 2) (current + 2))).
  { intros p. rewrite pages_of_range_In.
    destruct (total <=? 7) eqn:E;
      [apply Z.leb_le in E|apply Z.leb_gt in E]; lia. }
  split; [intros p Hp; apply M in Hp; tauto|].
  split; [apply M; lia|]. split; [apply M; lia|]. split; [apply M; lia|].
  intros p Hp Hd. apply M. lia.
Qed.

(** X1: the page numbers of the range are strictly increasing and are pages
    that exist; the first page, the last page, the current page and every
    page within distance 2 of the current one are among them. *)
Theorem range_pages (current total : Z) :
  0 <= current < total ->
  let ps := pages_of (buildPageRange current total) in
  increasing ps
  /\ (forall p, In p ps -> 0 <= p < total)
  /\ In 0 ps /\ In (total - 1) ps /\ In current ps
  /\ (forall p, 0 <= p < total -> Z.abs (p - current) <= 2 -> In p ps).
Proof. apply range_pages_facts. Qed.

Lemma range_pages_witness :
  In 5 (pages_of (buildPageRange 5 10))
  /\ In 9 (pages_of (buildPageRange 5 10)).
Proof.
  destruct (range_pages 5 10 ltac:(lia)) as (_ & _ & _ & H9 & H5 & _).
  split; [exact H5|exact H9].
Defined.

Lemma In_page_link (c p : Z) (l : list PageItem) :
  In p (pages_of l) -> In (NumberLink (p =? c) p) (map (page_link c) l).
Proof.
  induction l as [|[q|] l IH]; cbn; [tauto| |].
  - intros [->|H]; [now left|right; now apply IH].
  - intros H. right. now apply IH.
Qed.

Lemma goToPage_rejects (p : Z) (w : World) :
  in_range p w = false -> goToPage p w = w.
Proof.
  unfold in_range, goToPage. intros H.
  replace ((p <? 0) || (totalPages (state w) <=? p)) with true; [reflexivity|].
  symmetry. apply andb_false_iff in H.
  apply orb_true_iff. rewrite Z.ltb_lt, Z.leb_le.
  destruct H as [H|H]; [apply Z.leb_gt in H|apply Z.ltb_ge in H]; lia.
Qed.

Lemma goToPage_accepts (p : Z) (w : World) :
  in_range p w = true -> page (state (goToPage p w)) = p.
Proof.
  unfold in_range, goToPage. intros H.
  apply andb_true_iff in H as [H1 H2].
  apply Z.leb_le in H1. apply Z.ltb_lt in H2.
  replace ((p <? 0) || (totalPages (state w) <=? p)) with false; [reflexivity|].
  symmetry. apply orb_false_iff. rewrite Z.ltb_ge, Z.leb_gt. lia.
Qed.

(** X2: when the page index has been left at or beyond [totalPages] and
    there are more than seven pages, the control still lists the current
    page, as the active link, although no such page exists; following that
    link changes nothing, because [goToPage] rejects it. *)
Theorem stale_page_still_listed (w : World) :
  7 < totalPages (state w) ->
  totalPages (state w) <= page (state w) ->
  let w' := renderPagination w in
  In (NumberLink true (page (state w))) (pagination (dom w'))
  /\ goToPage (page (state w)) w' = w'.
Proof.
  intros Ht Hp. cbv zeta. split.
  - unfold renderPagination.
    replace (totalPages (state w) <=? 1) with false
      by (symmetry; apply Z.leb_gt; lia).
    cbn. right. apply List.in_or_app. left.
    replace true with (page (state w) =? page (state w))
      by apply Z.eqb_refl.
    apply In_page_link. rewrite pages_of_range_In.
    replace (totalPages (state w) <=? 7) with false
      by (symmetry; apply Z.leb_gt; lia).
    lia.
  - apply goToPage_rejects. unfold in_range.
    rewrite (proj1 (renderPagination_frame w)).
    apply andb_false_iff. right. apply Z.ltb_ge. lia.
Qed.

Lemma stale_page_still_listed_witness :
  let w := with_state (set_page 20 (set_totalPages 10 initial_state))
             (fresh_world logged_in) in
  In (NumberLink true 20) (pagination (dom (renderPagination w))).
Proof.
  cbv zeta.
  apply (stale_page_still_listed
           (with_state (set_page 20 (set_totalPages 10 initial_state))
              (fresh_world logged_in))); cbn; lia.
Defined.

Lemma count_in_increasing (x : Z) (l : list Z) :
  increasing l -> In x l ->
  List.length (List.filter (fun p => p =? x) l) = 1%nat.
Proof.
  induction 1 as [|a l S IH F]; intros Hx; [destruct Hx|].
  rewrite List.Forall_forall in F. cbn.
  destruct (Z.eqb_spec a x) as [->|Hne].
  - cbn. f_equal.
    assert (E : List.filter (fun p => p =? x) l = []).
    { clear -F. induction l as [|b l IHl]; [reflexivity|].
      cbn. replace (b =? x) with false.
      - apply IHl. intros y Hy. apply F. now right.
      - symmetry. apply Z.eqb_neq. specialize (F b (or_introl eq_refl)). lia. }
    now rewrite E.
  - destruct Hx as [E|Hx]; [contradiction|]. now apply IH.
Qed.

Lemma active_links_count (c : Z) (l : list PageItem) :
  List.length (List.filter is_active (map (page_link c) l))
  = List.length (List.filter (fun p => p =? c) (pages_of l)).
Proof.
  induction l as [|[p|] l IH]; cbn; [reflexivity| |exact IH].
  destruct (p =? c); cbn; now rewrite IH.
Qed.

(** X3: with more than one page and the page index on an existing page,
    the control shows exactly one active link. *)
Theorem one_active_link (w : World) :
  1 < totalPages (state w) ->
  0 <= page (state w) < totalPages (state w) ->
  let w' := renderPagination w in
  pagination_hidden (dom w') = false
  /\ List.length (List.filter is_active (pagination (dom w'))) = 1%nat
  /\ In (NumberLink true (page (state w))) (pagination (dom w')).
Proof.
  intros Ht Hp. cbv zeta. unfold renderPagination.
  replace (totalPages (state w) <=? 1) with false
    by (symmetry; apply Z.leb_gt; lia).
  cbn. split; [reflexivity|].
  destruct (range_pages_facts (page (state w)) (totalPages (state w)) Hp)
    as (Hinc & _ & _ & _ & Hin & _).
  split.
  - rewrite List.filter_app, List.length_app. cbn.
    rewrite active_links_count, (count_in_increasing _ _ Hinc Hin). reflexivity.
  - right. apply List.in_or_app. left.
    replace true with (page (state w) =? page (state w)) by apply Z.eqb_refl.
    now apply In_page_link.
Qed.

Lemma one_active_link_witness :
  let w := with_state (set_page 5 (set_totalPages 10 initial_state))
             (fresh_world logged_in) in
  List.length (List.filter is_active (pagination (dom (renderPagination w))))
  = 1%nat.
Proof.
  cbv zeta.
  apply (one_active_link
           (with_state (set_page 5 (set_totalPages 10 initial_state))
              (fresh_world logged_in))); cbn; lia.
Defined.

Lemma number_links_in_range (c : Z) (w : World) (l : list PageItem) :
  (forall p, In p (pages_of l) -> in_range p w = true) ->
  forallb (link_consistent w) (map (page_link c) l) = true.
Proof.
  induction l as [|[p|] l IH]; intros H; cbn; [reflexivity| |].
  - rewrite (H p) by (cbn; now left). cbn. apply IH.
    intros y Hy. apply H. cbn. now right.
  - apply IH. exact H.
Qed.

(** X4: with more than one page and the page index on an existing page,
    every number link leads to an existing page, and the previous and next
    links are disabled exactly when their target is not one; [goToPage]
    ignores such a target and moves to any other. *)
Theorem links_follow_guard (w : World) :
  1 < totalPages (state w) ->
  0 <= page (state w) < totalPages (state w) ->
  let w' := renderPagination w in
  forallb (link_consistent w') (pagination (dom w')) = true
  /\ (forall p, in_range p w' = false -> goToPage p w' = w')
  /\ (forall p, in_range p w' = true -> page (state (goToPage p w')) = p).
Proof.
  intros Ht Hp. cbv zeta.
  split; [|split; intros p; [apply goToPage_rejects|apply goToPage_accepts]].
  unfold renderPagination.
  replace (totalPages (state w) <=? 1) with false
    by (symmetry; apply Z.leb_gt; lia).
  cbn [pagination dom with_dom set_pagination forallb link_consistent].
  unfold in_range at 1. cbn [state with_dom].
  replace (Bool.eqb (page (state w) =? 0)
             (negb ((0 <=? page (state w) - 1)
                    && (page (state w) - 1 <? totalPages (state w)))))
    with true.
  2:{ symmetry. apply Bool.eqb_true_iff.
      destruct (Z.eqb_spec (page (state w)) 0) as [E|E].
      - rewrite E. reflexivity.
      - symmetry. apply negb_false_iff, andb_true_iff.
        rewrite Z.leb_le, Z.ltb_lt. lia. }
  cbn [andb]. rewrite List.forallb_app. apply andb_true_iff. split.
  - apply number_links_in_range. intros p Hin.
    destruct (range_pages_facts (page (state w)) (totalPages (state w)) Hp)
      as (_ & Hr & _).
    specialize (Hr p Hin). unfold in_range. cbn [state with_dom].
    apply andb_true_iff. rewrite Z.leb_le, Z.ltb_lt. lia.
  - cbn [forallb link_consistent]. unfold in_range. cbn [state with_dom].
    rewrite andb_true_r. apply Bool.eqb_true_iff.
    destruct (Z.leb_spec (totalPages (state w) - 1) (page (state w))) as [E|E].
    + symmetry. apply negb_true_iff, andb_false_iff. right.
      apply Z.ltb_ge. lia.
    + symmetry. apply negb_false_iff, andb_true_iff.
      rewrite Z.leb_le, Z.ltb_lt. lia.
Qed.

Lemma links_follow_guard_witness :
  let w := with_state (set_page 9 (set_totalPages 10 initial_state))
             (fresh_world logged_in) in
  forallb (link_consistent (renderPagination w))
    (pagination (dom (renderPagination w))) = true.
Proof.
  cbv zeta.
  apply (links_follow_guard
           (with_state (set_page 9 (set_totalPages 10 initial_state))
              (fresh_world logged_in))); cbn; lia.
Defined.

(** ** Requests and responses *)

Lemma intent_request (w : World) (e : Event) :
  is_intent e = true ->
  requests (step w e) = requests w ++ [reload_request (state (step w e)) w].
Proof.
  intros He. destruct e as [| | | | | | |[|]| | |]; try discriminate;
    unfold requests, reload_request; cbn;
    rewrite List.filter_app; reflexivity.
Qed.

(** X5: a filter change, a click on clear, a click on a column header, a
    direct reload and a refresh tick with no dialog open each send exactly
    one request, and it carries the query state as the event left it. *)
Theorem one_request_per_intent (w : World) (e : Event) :
  is_intent e = true ->
  requests (step w e) = requests w ++ [reload_request (state (step w e)) w].
Proof. apply intent_request. Qed.

Lemma one_request_per_intent_witness :
  requests (step boot (StatusChange "ACTIVE"))
  = requests boot
    ++ [reload_request (state (step boot (StatusChange "ACTIVE"))) boot].
Proof. apply (one_request_per_intent boot (StatusChange "ACTIVE")). reflexivity.
Defined.

Lemma loadDevices_catch_frame (msg : string) (w : World) :
  state (loadDevices_catch msg w) = state w
  /\ requests (loadDevices_catch msg w) = requests w
  /\ timers (loadDevices_catch msg w) = timers w
  /\ search_input (dom (loadDevices_catch msg w)) = search_input (dom w)
  /\ status_filter (dom (loadDevices_catch msg w)) = status_filter (dom w)
  /\ type_filter (dom (loadDevices_catch msg w)) = type_filter (dom w)
  /\ device_count (dom (loadDevices_catch msg w)) = device_count (dom w)
  /\ pagination (dom (loadDevices_catch msg w)) = pagination (dom w)
  /\ pagination_hidden (dom (loadDevices_catch msg w)) = pagination_hidden (dom w)
  /\ log (loadDevices_catch msg w)
     = log w ++ [Toast ("Failed to load devices: " +:+ msg) "danger"].
Proof.
  repeat split; try reflexivity.
  unfold requests. cbn. rewrite List.filter_app. cbn. apply List.app_nil_r.
Qed.

Lemma resume_keeps_query (r : Settled) (w : World) :
  query_fields (state (loadDevices_resume r w)) = query_fields (state w)
  /\ requests (loadDevices_resume r w) = requests w
  /\ timers (loadDevices_resume r w) = timers w
  /\ search_input (dom (loadDevices_resume r w)) = search_input (dom w)
  /\ status_filter (dom (loadDevices_resume r w)) = status_filter (dom w)
  /\ type_filter (dom (loadDevices_resume r w)) = type_filter (dom w).
Proof.
  assert (C : forall msg,
             query_fields (state (loadDevices_catch msg w)) = query_fields (state w)
             /\ requests (loadDevices_catch msg w) = requests w
             /\ timers (loadDevices_catch msg w) = timers w
             /\ search_input (dom (loadDevices_catch msg w)) = search_input (dom w)
             /\ status_filter (dom (loadDevices_catch msg w)) = status_filter (dom w)
             /\ type_filter (dom (loadDevices_catch msg w)) = type_filter (dom w)).
  { intros msg.
    destruct (loadDevices_catch_frame msg w)
      as (-> & -> & -> & -> & -> & -> & _). repeat split; reflexivity. }
  destruct r as [[| |data]|msg]; try apply C.
  unfold loadDevices_resume, loadDevices_apply, renderPagination, renderTable,
    requests.
  cbv zeta. destruct (j_content data) as [[|d l]|]; cbn;
    match goal with
    | |- context [if ?c then _ else _] => destruct c
    end; repeat split; reflexivity.
Qed.

Lemma settle_keeps_query (o : FetchOutcome) (w : World) :
  query_fields (state (fst (apiFetch_settle o w))) = query_fields (state w)
  /\ requests (fst (apiFetch_settle o w)) = requests w
  /\ timers (fst (apiFetch_settle o w)) = timers w
  /\ dom (fst (apiFetch_settle o w)) = dom w.
Proof.
  assert (L : requests (logout w) = requests w).
  { unfold requests. cbn. rewrite List.filter_app. cbn. apply List.app_nil_r. }
  destruct o as [m|r]; cbn; [repeat split; reflexivity|].
  destruct (resp_status r =? 401); [repeat split; try reflexivity; exact L|].
  destruct (negb (resp_ok r)); [repeat split; reflexivity|].
  destruct (resp_status r =? 204); [repeat split; reflexivity|].
  destruct (resp_body r); repeat split; reflexivity.
Qed.

Lemma respond_keeps_query (id : nat) (o : FetchOutcome) (w : World) :
  query_fields (state (respond id o w)) = query_fields (state w)
  /\ requests (respond id o w) = requests w
  /\ timers (respond id o w) = timers w
  /\ search_input (dom (respond id o w)) = search_input (dom w)
  /\ status_filter (dom (respond id o w)) = status_filter (dom w)
  /\ type_filter (dom (respond id o w)) = type_filter (dom w).
Proof.
  destruct (inflight w !! id) as [k|] eqn:H.
  - rewrite (respond_pending _ _ _ _ H). cbv zeta.
    set (w1 := with_inflight (delete id (inflight w)) (next_request w) w).
    destruct (settle_keeps_query o w1) as (Eq & Er & Et & Ed).
    destruct k.
    + destruct (resume_keeps_query (snd (apiFetch_settle o w1))
                  (fst (apiFetch_settle o w1)))
        as (-> & -> & -> & -> & -> & ->).
      rewrite Eq, Er, Et, Ed. repeat split; reflexivity.
    + rewrite Eq, Er, Et, Ed. repeat split; reflexivity.
  - unfold respond. rewrite H. repeat split; reflexivity.
Qed.

(** X6: handling the response to a reload, whatever the response is, sends
    no request and changes neither the page index, the page size, the
    sort, the filters nor the search text. *)
Theorem reload_response_sends_nothing
    (id : nat) (o : FetchOutcome) (w : World) :
  inflight w !! id = Some KLoadDevices ->
  requests (respond id o w) = requests w
  /\ query_fields (state (respond id o w)) = query_fields (state w).
Proof.
  intros _. destruct (respond_keeps_query id o w) as (H1 & H2 & _). now split.
Qed.

Lemma reload_response_sends_nothing_witness :
  requests (respond 0 unauthorized boot) = requests boot.
Proof.
  apply (reload_response_sends_nothing 0%nat unauthorized boot eq_refl).
Defined.

(** X7: a failed reload replaces the table and shows a notice, and leaves
    the rest as the last successful load set it: the query state with its
    totals, the count line and the pagination control. *)
Theorem failed_reload_keeps_totals (w : World) (id : nat) (o : FetchOutcome) :
  inflight w !! id = Some KLoadDevices ->
  fetch_failed o = true ->
  let w' := respond id o w in
  state w' = state w
  /\ device_count (dom w') = device_count (dom w)
  /\ pagination (dom w') = pagination (dom w)
  /\ pagination_hidden (dom w') = pagination_hidden (dom w)
  /\ exists msg,
       table_content (dom w') = load_error msg
       /\ In (Toast ("Failed to load devices: " +:+ msg) "danger") (log w').
Proof.
  intros Hid Hf. cbv zeta. rewrite (respond_pending _ _ _ _ Hid). cbv zeta.
  set (w1 := with_inflight (delete id (inflight w)) (next_request w) w).
  assert (R : exists msg w2,
             loadDevices_resume (snd (apiFetch_settle o w1))
               (fst (apiFetch_settle o w1)) = loadDevices_catch msg w2
             /\ state w2 = state w /\ dom w2 = dom w).
  { destruct o as [m|r]; cbn in Hf |- *.
    - exists m, w1. repeat split; reflexivity.
    - destruct (resp_status r =? 401).
      + exists (type_error_undefined w1), (logout w1). repeat split; reflexivity.
      + rewrite Hf. cbn. exists (error_message r), w1.
        repeat split; reflexivity. }
  destruct R as (msg & w2 & -> & Es & Ed).
  destruct (loadDevices_catch_frame msg w2)
    as (-> & _ & _ & _ & _ & _ & -> & -> & -> & ->).
  rewrite Es, Ed. repeat split; try reflexivity.
  exists msg. split; [reflexivity|].
  apply List.in_or_app. right. now left.
Qed.

Lemma failed_reload_keeps_totals_witness :
  state (respond 0 (FetchRejected "Failed to fetch") boot) = state boot.
Proof.
  apply (failed_reload_keeps_totals boot 0%nat (FetchRejected "Failed to fetch")
           eq_refl eq_refl).
Defined.

(** X8: when a successful response lacks [content], [totalElements] and
    [totalPages], the defaults apply: both totals become 0, the count line
    reads "0 devices found", the table shows the no-results block and the
    pagination control is hidden. *)
Theorem bare_object_response (w : World) (id : nat) (data : JsonObject) :
  inflight w !! id = Some KLoadDevices ->
  j_content data = None -> j_totalElements data = None ->
  j_totalPages data = None ->
  let w' := respond id (ok_response data) w in
  totalPages (state w') = 0 /\ totalItems (state w') = 0
  /\ device_count (dom w') = "0 devices found"
  /\ table_content (dom w') = no_results
  /\ pagination_hidden (dom w') = true.
Proof.
  intros Hid Hc He Hp. cbv zeta. rewrite (respond_pending _ _ _ _ Hid).
  cbv zeta. unfold ok_response. cbn.
  unfold loadDevices_apply. rewrite Hc, He, Hp. repeat split; reflexivity.
Qed.

Lemma bare_object_response_witness :
  device_count
    (dom (respond 0
            (ok_response {| j_message := None; j_error := None;
                            j_content := None; j_totalElements := None;
                            j_totalPages := None |}) boot))
  = "0 devices found".
Proof.
  apply (bare_object_response boot 0%nat
           {| j_message := None; j_error := None; j_content := None;
              j_totalElements := None; j_totalPages := None |}
           eq_refl eq_refl eq_refl eq_refl).
Defined.

(** ** The session *)

Lemma teardowns_emit (e : Effect) (w : World) :
  is_logout e = false -> teardowns (emit e w) = teardowns w.
Proof.
  intros H. unfold teardowns. cbn. rewrite List.filter_app. cbn.
  rewrite H. now rewrite List.app_nil_r.
Qed.

Lemma loadDevices_session (w : World) :
  sessionStorage (loadDevices w) = sessionStorage w
  /\ location_href (loadDevices w) = location_href w
  /\ teardowns (loadDevices w) = teardowns w.
Proof.
  repeat split; try reflexivity.
  unfold loadDevices, getDevices, apiFetch. now rewrite teardowns_emit.
Qed.

Lemma commits_session (due : list (nat * Z)) (w : World) :
  sessionStorage (fold_left (fun acc _ => search_commit acc) due w)
  = sessionStorage w
  /\ location_href (fold_left (fun acc _ => search_commit acc) due w)
     = location_href w
  /\ teardowns (fold_left (fun acc _ => search_commit acc) due w)
     = teardowns w.
Proof.
  revert w. induction due as [|e due IH]; intros w; cbn; [repeat split|].
  destruct (IH (search_commit w)) as (-> & -> & ->).
  unfold search_commit.
  destruct (loadDevices_session
              (with_state
                 (set_page 0 (set_q (trim (search_input (dom w))) (state w))) w))
    as (-> & -> & ->).
  repeat split; reflexivity.
Qed.

Lemma settle_untouched (o : FetchOutcome) (w : World) :
  is_unauthorized (Respond 0 o) = false -> fst (apiFetch_settle o w) = w.
Proof.
  destruct o as [m|r]; cbn; [reflexivity|]. intros ->.
  destruct (negb (resp_ok r)); [reflexivity|].
  destruct (resp_status r =? 204); [reflexivity|].
  destruct (resp_body r); reflexivity.
Qed.

Lemma step_session (w : World) (e : Event) :
  is_unauthorized e = false ->
  sessionStorage (step w e) = sessionStorage w
  /\ location_href (step w e) = location_href w
  /\ teardowns (step w e) = teardowns w.
Proof.
  intros He. destruct e; cbn [step].
  - repeat split; reflexivity.
  - unfold elapse. cbv zeta.
    match goal with
    | |- context [fold_left _ ?due ?x] =>
        destruct (commits_session due x) as (-> & -> & ->)
    end.
    repeat split; reflexivity.
  - unfold on_status_change. cbv zeta.
    match goal with
    | |- context [loadDevices ?x] => exact (loadDevices_session x)
    end.
  - unfold on_type_change. cbv zeta.
    match goal with
    | |- context [loadDevices ?x] => exact (loadDevices_session x)
    end.
  - unfold on_clear_filters. cbv zeta.
    match goal with
    | |- context [loadDevices ?x] => exact (loadDevices_session x)
    end.
  - unfold sortBy. cbv zeta.
    match goal with
    | |- context [loadDevices ?x] => exact (loadDevices_session x)
    end.
  - unfold goToPage.
    destruct ((p <? 0) || (totalPages (state w) <=? p)); [repeat split|].
    rewrite teardowns_emit by reflexivity.
    exact (loadDevices_session (with_state (set_page p (state w)) w)).
  - destruct anyOpen; [repeat split|apply loadDevices_session].
  - apply loadDevices_session.
  - repeat split; try reflexivity. unfold apiFetch. now rewrite teardowns_emit.
  - destruct (inflight w !! id) as [k|] eqn:H.
    + rewrite (respond_pending _ _ _ _ H). cbv zeta.
      rewrite (settle_untouched o) by exact He.
      destruct k; [|repeat split; reflexivity].
      destruct (loadDevices_resume_frame
                  (snd (apiFetch_settle o
                          (with_inflight (delete id (inflight w))
                             (next_request w) w)))
                  (with_inflight (delete id (inflight w)) (next_request w) w))
        as (_ & -> & -> & _ & ->).
      repeat split; reflexivity.
    + unfold respond. rewrite H. repeat split; reflexivity.
Qed.

(** X9: the stored credentials and the location change only when a response
    with status 401 is handled: a run of events without one, whatever
    failures it contains, leaves the session as it was and tears nothing
    down. *)
Theorem session_kept_without_401 (w : World) (es : list Event) :
  forallb (fun e => negb (is_unauthorized e)) es = true ->
  sessionStorage (run w es) = sessionStorage w
  /\ location_href (run w es) = location_href w
  /\ teardowns (run w es) = teardowns w.
Proof.
  revert w. induction es as [|e es IH]; intros w H; [repeat split|].
  cbn in H. apply andb_true_iff in H as [He H].
  apply negb_true_iff in He.
  change (run w (e :: es)) with (run (step w e) es).
  destruct (IH (step w e) H) as (-> & -> & ->).
  now apply step_session.
Qed.

Lemma session_kept_without_401_witness :
  sessionStorage
    (run boot [Respond 0 (FetchResponse {| resp_status := 403;
                                            resp_body := BodyNull |});
               SortBy "type"; Respond 1 (FetchRejected "Failed to fetch")])
  = sessionStorage boot.
Proof.
  apply (session_kept_without_401 boot
           [Respond 0%nat (FetchResponse {| resp_status := 403;
                                            resp_body := BodyNull |});
            SortBy "type"; Respond 1%nat (FetchRejected "Failed to fetch")]).
  reflexivity.
Defined.

Lemma getAuthHeader_absent (w : World) :
  sessionStorage w !! AUTH_KEY = None -> getAuthHeader w = "Basic null".
Proof. unfold getAuthHeader. now intros ->. Qed.

(** X10: once a 401 has been handled, every reload the page still sends
    carries the header [Basic null]. *)
Theorem requests_after_teardown
    (w : World) (id : nat) (k : Cont) (r : Response) (e : Event) :
  inflight w !! id = Some k ->
  resp_status r = 401 ->
  is_intent e = true ->
  let w' := respond id (FetchResponse r) w in
  exists s,
    requests (step w' e) =
    requests w' ++
    [Fetch (next_request w')
       {| method := "GET"; path := "/devices"; query := getDevices_query s;
          authorization := "Basic null" |}].
Proof.
  intros Hid Hs He. cbv zeta.
  exists (state (step (respond id (FetchResponse r) w) e)).
  rewrite (intent_request _ _ He). unfold reload_request.
  rewrite getAuthHeader_absent; [reflexivity|].
  rewrite (respond_pending _ _ _ _ Hid). cbv zeta.
  unfold apiFetch_settle. rewrite Hs. cbn [Z.eqb Pos.eqb fst snd].
  set (w1 := with_inflight (delete id (inflight w)) (next_request w) w).
  destruct (logout_effect w1) as (Ha & _).
  destruct k; [|exact Ha].
  destruct (loadDevices_resume_frame (Fulfilled AUndefined) (logout w1))
    as (_ & -> & _). exact Ha.
Qed.

Lemma requests_after_teardown_witness :
  exists s,
    requests (step (respond 0 unauthorized boot) Reload) =
    requests (respond 0 unauthorized boot) ++
    [Fetch (next_request (respond 0 unauthorized boot))
       {| method := "GET"; path := "/devices"; query := getDevices_query s;
          authorization := "Basic null" |}].
Proof.
  apply (requests_after_teardown boot 0%nat KLoadDevices
           {| resp_status := 401; resp_body := BodyNull |} Reload
           eq_refl eq_refl eq_refl).
Defined.

(** X11: [requireAuth] only asks for the navigation. On a page opened
    without a stored token, or with an empty one, the script navigates to
    the login page and still sends its first request, with the header
    [Basic null] or [Basic ] followed by nothing; with a non-empty token it
    sends the request alone, with that token. *)
Theorem first_request (ss : gmap string string) :
  log (DOMContentLoaded (fresh_world ss)) =
  match ss !! AUTH_KEY with
  | Some token =>
      (if truthy token then [] else [Navigate "index.html"])
      ++ [Fetch 0 {| method := "GET"; path := "/devices";
                     query := [("page", "0"); ("size", "20");
                               ("sort", "name,asc")];
                     authorization := "Basic " +:+ token |}]
  | None =>
      [Navigate "index.html";
       Fetch 0 {| method := "GET"; path := "/devices";
                  query := [("page", "0"); ("size", "20"); ("sort", "name,asc")];
                  authorization := "Basic null" |}]
  end.
Proof.
  unfold DOMContentLoaded, requireAuth, loadDevices, getDevices, apiFetch,
    getAuthHeader. cbn [sessionStorage fresh_world].
  destruct (ss !! AUTH_KEY) as [[|a token]|] eqn:E; cbn; rewrite E; reflexivity.
Qed.

(** ** The toolbar *)

Lemma trim_all_space (s : string) : all_space s = true -> trim s = EmptyString.
Proof.
  unfold all_space, trim. destruct (trim_start s); [reflexivity|discriminate].
Qed.

Lemma param_q_absent (s : State) :
  q s = EmptyString -> param "q" (getDevices_query s) = None.
Proof.
  intros Hq. unfold getDevices_query. rewrite Hq.
  destruct (truthy (sort s)), (truthy (status s)), (truthy (type s));
    reflexivity.
Qed.

(** X12: a search text of white space only, of whatever kind [trim]
    removes, is committed as the empty string, and the request sent for it
    has no [q] parameter. *)
Theorem blank_search_sends_no_q (w : World) (text : string) (d : Z) :
  cancellable w = true ->
  all_space text = true ->
  350 <= d ->
  let w' := run w [SearchInput text; Elapse d] in
  q (state w') = EmptyString
  /\ exists qs,
       requests w' =
       requests w ++
       [Fetch (next_request w)
          {| method := "GET"; path := "/devices"; query := qs;
             authorization := getAuthHeader w |}]
       /\ param "q" qs = None.
Proof.
  intros Hc Hs Hd. cbv zeta.
  destruct (input_then_silence text d w Hc Hd) as (Es & El & _).
  rewrite (trim_all_space text Hs) in Es, El.
  split; [now rewrite Es|].
  exists (getDevices_query (set_page 0 (set_q EmptyString (state w)))).
  split.
  - unfold requests. rewrite El, List.filter_app. reflexivity.
  - now apply param_q_absent.
Qed.

Lemma blank_search_sends_no_q_witness :
  q (state (run boot [SearchInput (bytes [32; 194; 160; 9]%nat); Elapse 400]))
  = EmptyString.
Proof.
  apply (blank_search_sends_no_q boot (bytes [32; 194; 160; 9]%nat) 400
           eq_refl eq_refl).
  lia.
Defined.

(** X13: a click on clear does not cancel a pending search commit. When the
    box is typed in, the filters are cleared within the window and the
    window then runs out, two requests go out, both for the cleared state,
    and the typed text is never searched for. *)
Theorem clear_keeps_pending_commit (w : World) (text : string) (gap d : Z) :
  cancellable w = true ->
  gap < 350 -> 350 <= gap + d -> 0 <= gap ->
  let w' := run w [SearchInput text; Elapse gap; ClearFilters; Elapse d] in
  let cleared := set_page 0 (set_type EmptyString (set_status EmptyString
                   (set_q EmptyString (state w)))) in
  query_fields (state w') = query_fields cleared
  /\ search_input (dom w') = EmptyString
  /\ timers w' = []
  /\ requests w' =
       requests w ++
       [Fetch (next_request w)
          {| method := "GET"; path := "/devices";
             query := getDevices_query cleared;
             authorization := getAuthHeader w |};
        Fetch (S (next_request w))
          {| method := "GET"; path := "/devices";
             query := getDevices_query cleared;
             authorization := getAuthHeader w |}].
Proof.
  intros Hc Hg Hd Hg0. cbv zeta. cbn [run fold_left step].
  unfold elapse, on_clear_filters, on_search_input.
  cbn [timers with_timer with_dom with_state with_clock clock searchDebounce
       next_handle loadDevices getDevices apiFetch emit with_inflight].
  rewrite (clearTimeout_cancellable w Hc).
  cbn [app List.filter snd].
  replace (clock w + 350 <=? clock w + Z.max 0 gap) with false
    by (symmetry; apply Z.leb_gt; lia).
  cbn [negb List.filter fold_left timers with_timer with_clock clock snd].
  replace (clock w + 350 <=? clock w + Z.max 0 gap + Z.max 0 d) with true
    by (symmetry; apply Z.leb_le; lia).
  unfold requests, getAuthHeader. cbn.
  rewrite !List.filter_app. cbn. rewrite <- List.app_assoc.
  repeat split; reflexivity.
Qed.

Lemma clear_keeps_pending_commit_witness :
  List.length
    (requests (run boot [SearchInput "router"; Elapse 100; ClearFilters;
                         Elapse 300]))
  = 3%nat.
Proof.
  destruct (clear_keeps_pending_commit boot "router" 100 300 eq_refl
              ltac:(lia) ltac:(lia) ltac:(lia)) as (_ & _ & _ & H).
  rewrite H. reflexivity.
Defined.

Lemma commits_sync (due : list (nat * Z)) (w : World) :
  let w' := fold_left (fun acc _ => search_commit acc) due w in
  dom w' = dom w /\ status (state w') = status (state w)
  /\ type (state w') = type (state w)
  /\ (due <> [] -> q (state w') = trim (search_input (dom w)))
  /\ (due = [] -> w' = w).
Proof.
  revert w. induction due as [|e due IH]; intros w; cbv zeta; cbn.
  - repeat split; try reflexivity. intros H. now destruct H.
  - destruct (IH (search_commit w)) as (Ed & Es & Et & Eq & E0).
    cbv zeta in *. rewrite Ed, Es, Et.
    repeat split; try reflexivity; [|discriminate].
    intros _. destruct due as [|e' due].
    + rewrite (E0 eq_refl). reflexivity.
    + rewrite Eq by discriminate. reflexivity.
Qed.

Lemma step_in_sync (w : World) (e : Event) : in_sync w -> in_sync (step w e).
Proof.
  intros (Hs & Ht & Hq). destruct e; cbn [step].
  - repeat split; try assumption. cbn. intros H.
    now destruct (clearTimeout (searchDebounce w) (timers w)).
  - unfold elapse. cbv zeta.
    match goal with
    | |- context [fold_left _ ?due ?x] =>
        destruct (commits_sync due x) as (Ed & Es' & Et' & Eq & E0)
    end.
    cbv zeta in *.
    unfold in_sync. rewrite Ed, Es', Et'.
    split; [exact Hs|]. split; [exact Ht|].
    destruct (List.filter (fun e => snd e <=? clock w + Z.max 0 dt) (timers w))
      as [|e due] eqn:Edue.
    + rewrite (E0 eq_refl). cbn. intros Hrest. apply Hq.
      clear -Edue Hrest.
      induction (timers w) as [|a l IH]; [reflexivity|].
      cbn in Edue, Hrest. destruct (snd a <=? clock w + Z.max 0 dt);
        cbn in Hrest; discriminate.
    + intros _. rewrite Eq by discriminate. reflexivity.
  - repeat split; try assumption; try reflexivity.
  - repeat split; try assumption; try reflexivity.
  - repeat split; reflexivity.
  - unfold sortBy. cbv zeta.
    destruct (String.eqb (sort (state w)) col); repeat split; assumption.
  - unfold goToPage.
    destruct ((p <? 0) || (totalPages (state w) <=? p));
      repeat split; assumption.
  - destruct anyOpen; repeat split; assumption.
  - repeat split; assumption.
  - repeat split; assumption.
  - destruct (respond_keeps_query id o w) as (Eq & _ & Et & Ei & Es' & Ey).
    unfold query_fields in Eq. injection Eq as _ _ _ _ Est Ety Eqq.
    unfold in_sync. rewrite Et, Ei, Es', Ey, Est, Ety, Eqq.
    repeat split; assumption.
Qed.

(** X14: at every moment the two filter boxes show the filters of the
    query state, and whenever no search commit is pending the search text
    of the query state is the trimmed content of the search box. *)
Theorem toolbar_in_sync (ss : gmap string string) (es : list Event) :
  in_sync (run (DOMContentLoaded (fresh_world ss)) es).
Proof.
  assert (H : in_sync (DOMContentLoaded (fresh_world ss))).
  { unfold DOMContentLoaded, requireAuth. cbn [sessionStorage fresh_world].
    destruct (ss !! AUTH_KEY) as [[|? ?]|]; repeat split; reflexivity. }
  revert H. generalize (DOMContentLoaded (fresh_world ss)) as w.
  induction es as [|e es IH]; intros w Hw; [exact Hw|].
  apply IH, step_in_sync, Hw.
Qed.

(** X15: two clicks in a row on the same column header leave the table
    sorted by that column: descending when another column was sorted by
    before, and in the direction it had when that column was already the
    sort column; each click sends a request. *)
Theorem sortBy_twice (col : string) (w : World) :
  let w2 := sortBy col (sortBy col w) in
  sort (state w2) = col
  /\ (sort (state w) <> col -> direction (state w2) = "desc")
  /\ (sort (state w) = col ->
      direction (state w) = "asc" \/ direction (state w) = "desc" ->
      direction (state w2) = direction (state w))
  /\ List.length (requests w2) = (List.length (requests w) + 2)%nat.
Proof.
  cbv zeta. unfold sortBy, requests. cbn.
  rewrite !List.filter_app, !List.length_app. cbn.
  destruct (String.eqb_spec (sort (state w)) col) as [Hc|Hc]; cbn.
  - rewrite Hc, String.eqb_refl.
    destruct (String.eqb_spec (direction (state w)) "asc") as [Hd|Hd]; cbn.
    + repeat split; try congruence; lia.
    + repeat split; try congruence; try lia.
      intros _ [H|H]; congruence.
  - rewrite String.eqb_refl. cbn.
    repeat split; try congruence; lia.
Qed.

(** ** Query parameters *)

Lemma show_Z_nonempty (z : Z) : show_Z z <> EmptyString.
Proof.
  unfold show_Z, NilZero.string_of_int.
  destruct (Z.to_int z) as [d|d]; [|discriminate].
  unfold NilZero.string_of_uint. destruct d; discriminate.
Qed.

(** X16: the parameter list of a collection request names no parameter
    twice and holds no empty value; [status], [type] and [q] are left out
    exactly when the query state has them empty. *)
Theorem query_parameters (s : State) :
  let qs := getDevices_query s in
  List.NoDup (map fst qs)
  /\ (forall k v, In (k, v) qs -> v <> EmptyString)
  /\ (param "status" qs = None <-> status s = EmptyString)
  /\ (param "type" qs = None <-> type s = EmptyString)
  /\ (param "q" qs = None <-> q s = EmptyString).
Proof.
  cbv zeta. unfold getDevices_query.
  pose proof (show_Z_nonempty (page s)) as Hp.
  pose proof (show_Z_nonempty (size s)) as Hz.
  destruct (sort s) as [|a1 s1], (status s) as [|a2 s2],
    (type s) as [|a3 s3], (q s) as [|a4 s4]; cbn;
    (split; [repeat (constructor; [cbn; intuition discriminate|]); constructor|]);
    (split; [intros k v H;
             repeat (destruct H as [H|H];
                     [injection H as _ <-; try assumption; discriminate|]);
             destruct H|]);
    repeat split; intros; try reflexivity; discriminate.
Qed.

(** ** Logging in and out *)

(** X17: after a login the server accepted, the header every later request
    carries is the one the login was validated with, the stored user is the
    name given and the location is the dashboard; [requireAuth] lets the
    page be, the encoded credentials being a non-empty string. *)
Theorem login_accepted (btoa : string -> string) (username password : string)
    (r : Response) (w : World) :
  resp_ok r = true ->
  truthy (btoa (username +:+ ":" +:+ password)) = true ->
  let w' := fst (login_settle btoa username password (FetchResponse r) w) in
  snd (login_settle btoa username password (FetchResponse r) w) = None
  /\ getAuthHeader w' = login_authorization btoa username password
  /\ getCurrentUser w' = Some username
  /\ requireAuth w' = w'
  /\ location_href w' = "dashboard.html".
Proof.
  intros Hok Ht. cbv zeta. unfold login_settle. rewrite Hok. cbn.
  unfold getAuthHeader, getCurrentUser, requireAuth, login_authorization. cbn.
  rewrite lookup_insert_ne by discriminate.
  rewrite !lookup_insert_eq.
  destruct (btoa (username +:+ ":" +:+ password)); [discriminate|].
  repeat split; reflexivity.
Qed.

Lemma login_accepted_witness :
  getCurrentUser
    (fst (login_settle (fun s => s) "admin" "secret"
            (FetchResponse {| resp_status := 200; resp_body := BodyNull |})
            (fresh_world ∅))) = Some "admin".
Proof.
  apply (login_accepted (fun s => s) "admin" "secret"
           {| resp_status := 200; resp_body := BodyNull |} (fresh_world ∅)
           eq_refl eq_refl).
Defined.

(** X18: a login that fails stores nothing and does not navigate; it
    rejects with "Invalid username or password." for status 401, with
    "Server error: " and the status for any other failed response, and with
    the message of the rejection when the request itself failed. *)
Theorem login_refused (btoa : string -> string) (username password : string)
    (o : FetchOutcome) (w : World) :
  fetch_failed o = true ->
  fst (login_settle btoa username password o w) = w
  /\ exists msg,
       snd (login_settle btoa username password o w) = Some msg
       /\ (forall m, o = FetchRejected m -> msg = m)
       /\ (forall r, o = FetchResponse r -> resp_status r = 401 ->
             msg = "Invalid username or password.")
       /\ (forall r, o = FetchResponse r -> resp_status r <> 401 ->
             msg = "Server error: " +:+ show_Z (resp_status r)).
Proof.
  intros Hf. destruct o as [m|r]; cbn in Hf |- *.
  - split; [reflexivity|]. exists m. split; [reflexivity|].
    split; [congruence|]. split; discriminate.
  - rewrite Hf. cbn. split; [reflexivity|].
    destruct (Z.eqb_spec (resp_status r) 401) as [E|E].
    + eexists. split; [reflexivity|]. split; [discriminate|].
      split; [reflexivity|]. intros r' [= <-] H. contradiction.
    + eexists. split; [reflexivity|]. split; [discriminate|].
      split; [intros r' [= <-] H; contradiction|].
      now intros r' [= <-] _.
Qed.

Lemma login_refused_witness :
  snd (login_settle (fun s => s) "admin" "wrong"
         (FetchResponse {| resp_status := 401; resp_body := BodyNull |})
         (fresh_world ∅)) = Some "Invalid username or password.".
Proof.
  destruct (login_refused (fun s => s) "admin" "wrong"
              (FetchResponse {| resp_status := 401; resp_body := BodyNull |})
              (fresh_world ∅) eq_refl) as (_ & msg & E & _ & H & _).
  rewrite E. f_equal. apply (H _ eq_refl). reflexivity.
Defined.

(** X19: [logout] removes the token and the user name and nothing else, and
    undoes a login: when the storage held neither key before the login,
    it is afterwards what it was and no user is stored; [requireAuth], which
    let the page be after the login, then asks for the login page. *)
Theorem login_then_logout (btoa : string -> string) (username password : string)
    (r : Response) (w : World) :
  resp_ok r = true ->
  sessionStorage w !! AUTH_KEY = None ->
  sessionStorage w !! USER_KEY = None ->
  let w1 := fst (login_settle btoa username password (FetchResponse r) w) in
  sessionStorage (logout w1) = sessionStorage w
  /\ getCurrentUser (logout w1) = None
  /\ log (requireAuth (logout w1)) = log (logout w1) ++ [Navigate "index.html"]
  /\ (truthy (btoa (username +:+ ":" +:+ password)) = true ->
      log (requireAuth w1) = log w1)
  /\ (forall k, k <> AUTH_KEY -> k <> USER_KEY ->
        sessionStorage (logout w1) !! k = sessionStorage w1 !! k).
Proof.
  intros Hok Ha Hu. cbv zeta. unfold login_settle. rewrite Hok. cbn.
  assert (E : delete USER_KEY
                (delete AUTH_KEY
                   (<[USER_KEY:=username]>
                      (<[AUTH_KEY:=btoa (username +:+ ":" +:+ password)]>
                         (sessionStorage w)))) = sessionStorage w).
  { apply map_eq. intros k. rewrite !lookup_delete, !lookup_insert.
    repeat case_decide; subst; try reflexivity; try congruence. }
  split; [exact E|].
  unfold getCurrentUser, requireAuth. cbn. rewrite E, Ha.
  split; [exact Hu|]. split; [reflexivity|].
  split.
  - rewrite lookup_insert_ne by discriminate. rewrite lookup_insert_eq.
    destruct (btoa (username +:+ ":" +:+ password)); [discriminate|reflexivity].
  - intros k Hka Hku. now rewrite !lookup_insert_ne by congruence.
Qed.

Lemma login_then_logout_witness :
  sessionStorage
    (logout (fst (login_settle (fun s => s) "admin" "secret"
                    (FetchResponse {| resp_status := 200;
                                      resp_body := BodyNull |})
                    (fresh_world ∅)))) = ∅.
Proof.
  apply (login_then_logout (fun s => s) "admin" "secret"
           {| resp_status := 200; resp_body := BodyNull |} (fresh_world ∅)
           eq_refl); vm_compute; reflexivity.
Defined.

(** ** Deleting and saving *)

Lemma api_result_any (o : FetchOutcome) (w : World) :
  snd (apiFetch_settle o w) = api_result o.
Proof.
  unfold api_result. destruct o as [m|r]; cbn; [reflexivity|].
  destruct (resp_status r =? 401); [reflexivity|].
  destruct (negb (resp_ok r)); [reflexivity|].
  destruct (resp_status r =? 204); [reflexivity|].
  destruct (resp_body r); reflexivity.
Qed.

Lemma settle_log (o : FetchOutcome) (w : World) :
  reloads (fst (apiFetch_settle o w)) = reloads w
  /\ state (fst (apiFetch_settle o w)) = state w
  /\ forall e, In e (log w) -> In e (log (fst (apiFetch_settle o w))).
Proof.
  assert (L : reloads (logout w) = reloads w
              /\ state (logout w) = state w
              /\ forall e, In e (log w) -> In e (log (logout w))).
  { unfold reloads. cbn. rewrite List.filter_app. cbn.
    rewrite List.app_nil_r. repeat split.
    intros e H. apply List.in_or_app. now left. }
  destruct o as [m|r]; cbn; [repeat split; auto|].
  destruct (resp_status r =? 401); [exact L|].
  destruct (negb (resp_ok r)); [repeat split; auto|].
  destruct (resp_status r =? 204); [repeat split; auto|].
  destruct (resp_body r); repeat split; auto.
Qed.

Lemma delete_pending (u : Ui) (id : string) (o : FetchOutcome) :
  target_id (deleteTargetId u) = Some id ->
  confirmDelete_respond (next_request (world u)) o (confirmDelete u) =
  let u1 := confirmDelete u in
  let w1 := with_inflight (delete (next_request (world u)) (inflight (world u1)))
              (next_request (world u1)) (world u1) in
  confirmDelete_resume (api_result o) (with_world (fst (apiFetch_settle o w1)) u1).
Proof.
  intros Ht. unfold confirmDelete_respond, confirmDelete. rewrite Ht.
  cbn. rewrite lookup_insert_eq. cbv zeta. now rewrite api_result_any.
Qed.

(** X20: [confirmDelete] does nothing without a target id. With one it
    sends [DELETE /devices/<id>] and disables the button, and whatever the
    outcome of the request, the button is enabled again, with its caption
    restored and its spinner hidden, once the response has been handled. *)
Theorem delete_button_restored (u : Ui) (o : FetchOutcome) :
  match target_id (deleteTargetId u) with
  | None => confirmDelete u = u
  | Some id =>
      log (world (confirmDelete u)) =
        log (world u) ++
        [Fetch (next_request (world u))
           {| method := "DELETE"; path := "/devices/" +:+ id; query := [];
              authorization := getAuthHeader (world u) |}]
      /\ delete_button (confirmDelete u) = busy "Deleting…"
      /\ delete_button
           (confirmDelete_respond (next_request (world u)) o (confirmDelete u))
         = idle "Delete"
  end.
Proof.
  destruct (target_id (deleteTargetId u)) as [id|] eqn:Ht.
  - rewrite (delete_pending u id o Ht).
    unfold confirmDelete. rewrite Ht.
    split; [reflexivity|]. split; [reflexivity|].
    cbv zeta. destruct (api_result o); reflexivity.
  - unfold confirmDelete. now rewrite Ht.
Qed.

Lemma delete_outcome_cases (u : Ui) (id : string) (o : FetchOutcome) :
  target_id (deleteTargetId u) = Some id ->
  let u2 := confirmDelete_respond (next_request (world u)) o (confirmDelete u) in
  (forall v, api_result o = Fulfilled v ->
     delete_shown u2 = false /\ deleteTargetId u2 = None
     /\ In (Toast "Device deleted." "success") (log (world u2))
     /\ reloads (world u2) = S (reloads (world u))
     /\ query_fields (state (world u2)) = query_fields (state (world u)))
  /\ (forall msg, api_result o = Rejected msg ->
        delete_shown u2 = delete_shown u
        /\ deleteTargetId u2 = deleteTargetId u
        /\ In (Toast ("Delete failed: " +:+ msg) "danger") (log (world u2))
        /\ reloads (world u2) = reloads (world u)).
Proof.
  intros Ht. cbv zeta. rewrite (delete_pending u id o Ht). cbv zeta.
  unfold confirmDelete. rewrite Ht.
  match goal with
  | |- context [apiFetch_settle o ?x] =>
      destruct (settle_log o x) as (Er & Es & _); set (w1 := x) in *
  end.
  split.
  - intros v ->. cbn. repeat split.
    + apply List.in_or_app. left. apply List.in_or_app. right. now left.
    + unfold reloads in *. cbn.
      rewrite !List.filter_app, !List.length_app. cbn.
      rewrite Er. subst w1. cbn. rewrite List.filter_app, List.length_app.
      cbn. lia.
    + now rewrite Es.
  - intros msg ->. cbn. repeat split.
    + apply List.in_or_app. right. now left.
    + unfold reloads in *. cbn. rewrite List.filter_app, List.length_app. cbn.
      rewrite Er. subst w1. cbn. rewrite List.filter_app, List.length_app.
      cbn. lia.
Qed.

(** X21: when the delete request resolves, a notice says so, the dialog is
    closed, the target is forgotten and one reload is sent; when it is
    rejected, a notice carries the message, the dialog and the target stay
    as they were and no reload is sent. *)
Theorem delete_outcome (u : Ui) (id : string) (o : FetchOutcome) :
  target_id (deleteTargetId u) = Some id ->
  let u2 := confirmDelete_respond (next_request (world u)) o (confirmDelete u) in
  (forall v, api_result o = Fulfilled v ->
     delete_shown u2 = false /\ deleteTargetId u2 = None
     /\ In (Toast "Device deleted." "success") (log (world u2))
     /\ reloads (world u2) = S (reloads (world u))
     /\ query_fields (state (world u2)) = query_fields (state (world u)))
  /\ (forall msg, api_result o = Rejected msg ->
        delete_shown u2 = delete_shown u
        /\ deleteTargetId u2 = deleteTargetId u
        /\ In (Toast ("Delete failed: " +:+ msg) "danger") (log (world u2))
        /\ reloads (world u2) = reloads (world u)).
Proof. apply delete_outcome_cases. Qed.

Lemma delete_outcome_witness :
  deleteTargetId
    (confirmDelete_respond 1
       (FetchResponse {| resp_status := 204; resp_body := BodyNull |})
       (confirmDelete (openDeleteModal "7f3c" "core-switch" (ui_of boot))))
  = None.
Proof.
  destruct (delete_outcome (openDeleteModal "7f3c" "core-switch" (ui_of boot))
              "7f3c"
              (FetchResponse {| resp_status := 204; resp_body := BodyNull |})
              eq_refl) as [H _].
  destruct (H ANull eq_refl) as (_ & Ht & _). exact Ht.
Defined.

(** X22: a delete request answered with 401 tears the session down and is
    then handled as a success: the notice "Device deleted." is shown, the
    dialog is closed and a reload is sent. *)
Theorem delete_unauthorized (u : Ui) (id : string) (r : Response) :
  target_id (deleteTargetId u) = Some id ->
  resp_status r = 401 ->
  let u2 := confirmDelete_respond (next_request (world u)) (FetchResponse r)
              (confirmDelete u) in
  In (Toast "Device deleted." "success") (log (world u2))
  /\ delete_shown u2 = false
  /\ reloads (world u2) = S (reloads (world u))
  /\ sessionStorage (world u2) !! AUTH_KEY = None
  /\ location_href (world u2) = "index.html".
Proof.
  intros Ht Hs. cbv zeta.
  assert (R : api_result (FetchResponse r) = Fulfilled AUndefined).
  { unfold api_result. cbn. now rewrite Hs. }
  destruct (delete_outcome_cases u id (FetchResponse r) Ht) as [H _].
  destruct (H AUndefined R) as (Hd & _ & Hl & Hr & _).
  repeat split; try assumption.
  - rewrite (delete_pending u id _ Ht). cbv zeta. rewrite R.
    cbn. rewrite Hs. cbn.
    rewrite lookup_delete_ne by discriminate. apply lookup_delete_eq.
  - rewrite (delete_pending u id _ Ht). cbv zeta. rewrite R.
    cbn. rewrite Hs. reflexivity.
Qed.

Lemma delete_unauthorized_witness :
  In (Toast "Device deleted." "success")
    (log (world
            (confirmDelete_respond 1 unauthorized
               (confirmDelete
                  (openDeleteModal "7f3c" "core-switch" (ui_of boot)))))).
Proof.
  apply (delete_unauthorized
           (openDeleteModal "7f3c" "core-switch" (ui_of boot)) "7f3c"
           {| resp_status := 401; resp_body := BodyNull |} eq_refl eq_refl).
Defined.

Lemma trimmed_or_null_blank (v : string) :
  all_space v = true -> trimmed_or_null v = None.
Proof.
  intros H. unfold trimmed_or_null. now rewrite (trim_all_space v H).
Qed.

(** X23: an invalid form is marked as validated and nothing is sent. A
    valid form is sent as one request, [POST /devices] when the hidden id
    is empty and [PUT /devices/<id>] otherwise, with the save button
    disabled; the body holds the trimmed name, and [null] for an optional
    field that is empty or white space only. *)
Theorem save_request (valid : bool) (u : Ui) :
  let u1 := saveDevice valid u in
  was_validated u1 = true /\ form u1 = form u
  /\ (valid = false ->
      world u1 = world u /\ bodies u1 = bodies u
      /\ save_button u1 = save_button u)
  /\ (valid = true ->
      log (world u1) =
        log (world u) ++
        [Fetch (next_request (world u))
           {| method := if truthy (form_id (form u)) then "PUT" else "POST";
              path := if truthy (form_id (form u))
                      then "/devices/" +:+ form_id (form u) else "/devices";
              query := [];
              authorization := getAuthHeader (world u) |}]
      /\ save_button u1 = busy "Saving…"
      /\ exists data,
           bodies u1 = bodies u ++ [(next_request (world u), data)]
           /\ data_name data = trim (form_name (form u))
           /\ (all_space (form_ip (form u)) = true -> data_ipAddress data = None)
           /\ (all_space (form_location (form u)) = true ->
               data_location data = None)
           /\ (all_space (form_serial (form u)) = true ->
               data_serialNumber data = None)
           /\ (all_space (form_description (form u)) = true ->
               data_description data = None)).
Proof.
  cbv zeta. unfold saveDevice. cbv zeta. destruct valid; cbn [negb];
    cbn [form with_device world with_world with_bodies bodies save_button
         was_validated device_shown device_title].
  - split; [destruct (truthy (form_id (form u))); reflexivity|].
    split; [destruct (truthy (form_id (form u))); reflexivity|].
    split; [discriminate|]. intros _.
    split; [destruct (truthy (form_id (form u))); reflexivity|].
    split; [destruct (truthy (form_id (form u))); reflexivity|].
    exists (form_data (form u)).
    split; [destruct (truthy (form_id (form u))); reflexivity|].
    split; [reflexivity|].
    repeat split; apply trimmed_or_null_blank.
  - split; [reflexivity|]. split; [reflexivity|].
    split; [repeat split|discriminate].
Qed.

Lemma saveDevice_effects (u : Ui) :
  log (world (saveDevice true u)) =
    log (world u) ++
    [Fetch (next_request (world u))
       {| method := if truthy (form_id (form u)) then "PUT" else "POST";
          path := if truthy (form_id (form u))
                  then "/devices/" +:+ form_id (form u) else "/devices";
          query := [];
          authorization := getAuthHeader (world u) |}]
  /\ form (saveDevice true u) = form u
  /\ device_shown (saveDevice true u) = device_shown u.
Proof.
  unfold saveDevice. cbv zeta. cbn [negb].
  cbn [form with_device world with_world with_bodies device_shown].
  destruct (truthy (form_id (form u))); repeat split; reflexivity.
Qed.

Lemma reloads_app (w : World) (l : list Effect) :
  List.length (List.filter is_reload (log w ++ l))
  = (reloads w + List.length (List.filter is_reload l))%nat.
Proof. unfold reloads. now rewrite List.filter_app, List.length_app. Qed.

Lemma reloads_loadDevices (w : World) :
  reloads (loadDevices w) = S (reloads w).
Proof.
  unfold reloads at 1. cbn [loadDevices getDevices apiFetch emit log
    with_inflight].
  rewrite reloads_app. cbn. lia.
Qed.

Lemma reloads_showToast (m k : string) (w : World) :
  reloads (showToast m k w) = reloads w.
Proof.
  unfold reloads at 1. cbn [showToast emit log]. rewrite reloads_app. cbn. lia.
Qed.

Lemma save_pending (u : Ui) (o : FetchOutcome) :
  saveDevice_respond (form_id (form u)) (next_request (world u)) o
    (saveDevice true u) =
  let u1 := saveDevice true u in
  let w1 := with_inflight (delete (next_request (world u)) (inflight (world u1)))
              (next_request (world u1)) (world u1) in
  saveDevice_resume (form_id (form u)) (api_result o)
    (with_world (fst (apiFetch_settle o w1)) u1).
Proof.
  unfold saveDevice_respond, saveDevice. cbv zeta. cbn [negb].
  cbn [form with_device world with_world with_bodies].
  destruct (truthy (form_id (form u)));
    unfold updateDevice, createDevice, apiFetch;
    cbn [inflight emit with_inflight]; rewrite lookup_insert_eq;
    now rewrite api_result_any.
Qed.

(** X24: once the response to a save has been handled the save button is
    enabled again whatever the outcome. When the request resolved, a notice
    names the update or the creation, the dialog is closed and one reload
    is sent; when it was rejected, a notice carries the message, the dialog
    stays as it was with the form as typed, and no reload is sent. *)
Theorem save_outcome (u : Ui) (o : FetchOutcome) :
  let u2 := saveDevice_respond (form_id (form u)) (next_request (world u)) o
              (saveDevice true u) in
  save_button u2 = idle "Save" /\ form u2 = form u
  /\ (forall v, api_result o = Fulfilled v ->
        device_shown u2 = false
        /\ In (Toast (if truthy (form_id (form u))
                      then "Device updated successfully."
                      else "Device created successfully.") "success")
             (log (world u2))
        /\ reloads (world u2) = S (reloads (world u)))
  /\ (forall msg, api_result o = Rejected msg ->
        device_shown u2 = device_shown u
        /\ In (Toast ("Save failed: " +:+ msg) "danger") (log (world u2))
        /\ reloads (world u2) = reloads (world u)).
Proof.
  cbv zeta. rewrite (save_pending u o). cbv zeta.
  match goal with
  | |- context [apiFetch_settle o ?x] =>
      destruct (settle_log o x) as (Er & _ & _); set (w1 := x) in *
  end.
  destruct (saveDevice_effects u) as (L & F & D).
  assert (R1 : reloads w1 = reloads (world u)).
  { subst w1. unfold reloads at 1. cbn [log with_inflight].
    rewrite L, reloads_app.
    destruct (truthy (form_id (form u))); cbn; lia. }
  split; [destruct (api_result o); reflexivity|].
  split; [destruct (api_result o); cbn; exact F|].
  split.
  - intros v ->.
    cbn [saveDevice_resume device_shown with_device with_world world
         loadDevices getDevices apiFetch emit log showToast state
         with_inflight inflight next_request].
    split; [reflexivity|]. split.
    + apply List.in_or_app. left. apply List.in_or_app. right. now left.
    + rewrite reloads_loadDevices, reloads_showToast. lia.
  - intros msg ->.
    cbn [saveDevice_resume device_shown with_device with_world world
         emit log showToast].
    split; [exact D|]. split.
    + apply List.in_or_app. right. now left.
    + change (reloads (showToast ("Save failed: " +:+ msg) "danger"
                         (fst (apiFetch_settle o w1))) = reloads (world u)).
      rewrite reloads_showToast. lia.
Qed.

(** X25: a save right after [openCreateModal] is a creation, whatever the
    form held before and whatever the markup resets it to: the request is
    [POST /devices] and the body has type SERVER and status ACTIVE. *)
Theorem create_dialog_posts (defaults : Form) (u : Ui) :
  let u1 := saveDevice true (openCreateModal defaults u) in
  log (world u1) =
    log (world u) ++
    [Fetch (next_request (world u))
       {| method := "POST"; path := "/devices"; query := [];
          authorization := getAuthHeader (world u) |}]
  /\ device_shown u1 = true
  /\ exists data,
       bodies u1 = bodies u ++ [(next_request (world u), data)]
       /\ data_type data = "SERVER" /\ data_status data = "ACTIVE".
Proof.
  cbv zeta. split; [reflexivity|]. split; [reflexivity|].
  eexists. split; [reflexivity|]. split; reflexivity.
Qed.

(** ** What every reachable state satisfies *)

Lemma filter_length_le {A : Type} (f : A -> bool) (l : list A) :
  (List.length (List.filter f l) <= List.length l)%nat.
Proof.
  induction l as [|a l IH]; cbn; [lia|]. destruct (f a); cbn; lia.
Qed.

Lemma step_timers_bound (w : World) (e : Event) :
  cancellable w = true ->
  (List.length (timers w) <= 1)%nat ->
  (List.length (timers (step w e)) <= 1)%nat.
Proof.
  intros Hc Hl. destruct e; cbn [step]; try exact Hl.
  - unfold on_search_input. cbn [timers with_timer with_dom searchDebounce].
    rewrite (clearTimeout_cancellable w Hc). cbn. lia.
  - unfold elapse. cbv zeta.
    match goal with
    | |- context [fold_left _ ?due ?x] =>
        destruct (commits_timers due x) as [-> _]
    end.
    cbn [timers with_clock with_timer].
    etransitivity; [apply filter_length_le|exact Hl].
  - unfold goToPage.
    destruct ((p <? 0) || (totalPages (state w) <=? p)); exact Hl.
  - destruct anyOpen; exact Hl.
  - now rewrite (proj1 (respond_timers id o w)).
Qed.

(** X26: at no moment is more than one search commit pending. *)
Theorem one_pending_commit (ss : gmap string string) (es : list Event) :
  (List.length (timers (run (DOMContentLoaded (fresh_world ss)) es)) <= 1)%nat.
Proof.
  assert (H : cancellable (DOMContentLoaded (fresh_world ss)) = true
              /\ (List.length (timers (DOMContentLoaded (fresh_world ss))) <= 1)%nat).
  { unfold DOMContentLoaded, requireAuth. cbn [sessionStorage fresh_world].
    destruct (ss !! AUTH_KEY) as [[|? ?]|]; split; cbn; (reflexivity || lia). }
  revert H. generalize (DOMContentLoaded (fresh_world ss)) as w.
  induction es as [|e es IH]; intros w [Hc Hl]; [exact Hl|].
  apply IH. split; [now apply step_cancellable|now apply step_timers_bound].
Qed.

Lemma commits_fields (due : list (nat * Z)) (w : World) :
  size (state (fold_left (fun acc _ => search_commit acc) due w))
  = size (state w)
  /\ direction (state (fold_left (fun acc _ => search_commit acc) due w))
     = direction (state w).
Proof.
  revert w. induction due as [|e due IH]; intros w; cbn; [now split|].
  destruct (IH (search_commit w)) as [-> ->]. now split.
Qed.

Lemma step_size_direction (w : World) (e : Event) :
  size (state (step w e)) = size (state w)
  /\ (direction (state w) = "asc" \/ direction (state w) = "desc" ->
      direction (state (step w e)) = "asc"
      \/ direction (state (step w e)) = "desc").
Proof.
  destruct e; cbn [step]; try (split; [reflexivity|tauto]).
  - unfold elapse. cbv zeta.
    match goal with
    | |- context [fold_left _ ?due ?x] =>
        destruct (commits_fields due x) as [-> ->]
    end.
    split; [reflexivity|tauto].
  - unfold sortBy. cbv zeta.
    destruct (String.eqb (sort (state w)) col); cbn; [|split; auto].
    destruct (String.eqb (direction (state w)) "asc"); split; auto.
  - unfold goToPage.
    destruct ((p <? 0) || (totalPages (state w) <=? p)); split;
      (reflexivity || tauto).
  - destruct anyOpen; split; (reflexivity || tauto).
  - destruct (respond_keeps_query id o w) as (Eq & _).
    unfold query_fields in Eq. injection Eq as _ Ez _ Ed _ _ _.
    rewrite Ez, Ed. split; [reflexivity|tauto].
Qed.

(** X27: throughout the life of the page the page size stays 20 and the
    sort direction is ascending or descending. *)
Theorem size_and_direction_kept (ss : gmap string string) (es : list Event) :
  let s := state (run (DOMContentLoaded (fresh_world ss)) es) in
  size s = 20 /\ (direction s = "asc" \/ direction s = "desc").
Proof.
  cbv zeta.
  assert (H : size (state (DOMContentLoaded (fresh_world ss))) = 20
              /\ (direction (state (DOMContentLoaded (fresh_world ss))) = "asc"
                  \/ direction (state (DOMContentLoaded (fresh_world ss))) = "desc")).
  { unfold DOMContentLoaded, requireAuth. cbn [sessionStorage fresh_world].
    destruct (ss !! AUTH_KEY) as [[|? ?]|]; split; cbn; auto. }
  revert H. generalize (DOMContentLoaded (fresh_world ss)) as w.
  induction es as [|e es IH]; intros w [Hs Hd]; [now split|].
  apply IH. destruct (step_size_direction w e) as [Es Ed].
  split; [now rewrite Es|now apply Ed].
Qed.

(** ** The error display *)

(** X28: when a reload fails with a rejected fetch or with a response whose
    status is neither 2xx nor 401, the table area is replaced by the error
    block carrying the failure's message: the rejection's message, or for a
    response [body.message], else [body.error], else ["HTTP "] and the
    status. That block differs from the no-results block, which a
    successful reload with an empty item list shows, from the initial
    markup and from every table of rows. *)
Theorem failed_reload_display (w : World) (id : nat) (o : FetchOutcome) :
  inflight w !! id = Some KLoadDevices ->
  (forall r, o = FetchResponse r -> resp_status r <> 401) ->
  (fetch_failed o = true ->
     exists msg,
       table_content (dom (respond id o w)) = load_error msg
       /\ (forall m, o = FetchRejected m -> msg = m)
       /\ (forall r obj m, o = FetchResponse r -> resp_body r = BodyObject obj ->
             j_message obj = Some m -> msg = m)
       /\ (forall r obj e, o = FetchResponse r -> resp_body r = BodyObject obj ->
             j_message obj = None -> j_error obj = Some e -> msg = e)
       /\ (forall r obj, o = FetchResponse r -> resp_body r = BodyObject obj ->
             j_message obj = None -> j_error obj = None ->
             msg = "HTTP " +:+ show_Z (resp_status r))
       /\ (forall r, o = FetchResponse r ->
             (resp_body r = BodyNull \/ exists e, resp_body r = BodyInvalid e) ->
             msg = "HTTP " +:+ show_Z (resp_status r)))
  /\ (forall data, o = ok_response data -> j_content data = Some [] ->
        table_content (dom (respond id o w)) = no_results)
  /\ (forall msg, load_error msg <> no_results)
  /\ (forall msg, load_error msg <> InitialMarkup)
  /\ (forall msg c d rows, load_error msg <> DeviceTable c d rows).
Proof.
  intros Hid Hne. rewrite (respond_pending id o KLoadDevices w Hid). cbv zeta.
  split.
  { intros Hf.
    destruct (table_after_failure o
                (with_inflight (delete id (inflight w)) (next_request w) w) Hf)
      as (msg & Ht & Hr & Hm & _).
    exists msg. split; [exact Ht|]. split; [exact Hr|].
    assert (M : forall r, o = FetchResponse r -> msg = error_message r).
    { intros r Ho. apply (Hm r Ho). now apply Hne. }
    repeat split.
    - intros r obj m Ho Hb Hj. rewrite (M r Ho).
      now apply (proj1 (error_message_cases r) obj m).
    - intros r obj e Ho Hb Hj He. rewrite (M r Ho).
      now apply (proj1 (proj2 (error_message_cases r)) obj e).
    - intros r obj Ho Hb Hj He. rewrite (M r Ho).
      now apply (proj1 (proj2 (proj2 (error_message_cases r))) obj).
    - intros r Ho [Hb|[e Hb]]; rewrite (M r Ho).
      + now apply (proj1 (proj2 (proj2 (proj2 (error_message_cases r))))).
      + now apply (proj2 (proj2 (proj2 (proj2 (error_message_cases r)))) e). }
  split.
  { intros data -> Hc. unfold ok_response. simpl.
    unfold loadDevices_apply. rewrite Hc.
    now rewrite (proj1 (proj2 (renderPagination_frame _))). }
  split; [discriminate|]. split; discriminate.
Qed.

Lemma failed_reload_display_witness :
  table_content
    (dom (respond 0 (FetchResponse {| resp_status := 500; resp_body := BodyNull |})
            boot)) = load_error "HTTP 500".
Proof.
  destruct (failed_reload_display boot 0%nat
              (FetchResponse {| resp_status := 500; resp_body := BodyNull |})
              eq_refl) as [H _].
  { intros r [= <-]. discriminate. }
  destruct (H eq_refl) as (msg & Ht & _ & _ & _ & _ & Hm).
  rewrite Ht. f_equal. apply (Hm _ eq_refl). now left.
Defined.
